(** * Financial structuring pipeline: extraction, aggregation, CSV

    A shallow embedding of [app/pipeline/extractor.py],
    [app/pipeline/aggregator.py] and [app/utils/csv_converter.py], together
    with the parts of the Python run time they rely on (strings, floats,
    dictionaries, exceptions, UUID generation).

    Conventions.
    - A Python [str] is a Rocq [string]; every character is a code point
      below 256 (the Latin-1 range), and [isspace], [lower] and [repr] are
      Python's restricted to that range.
    - A Python [float] is a binary64 number, [SpecFloat.spec_float] with
      precision 53 and maximal exponent 1024.
    - A Python [dict] is an association list in insertion order; lookups
      return the first binding of a key.
    - Exceptions are explicit: a computation returns [Ok v] or [Raise e].
      Only subclasses of [Exception] are considered, not interrupts.
    - [uuid.uuid4] reads sixteen bytes of operating-system entropy; the
      entropy is an explicit tape that is threaded through the aggregator.
    - The text of an integer is its full decimal expansion: the
      interpreter's optional limit on the number of digits is taken to be
      off.
    - Standard output ([print], [debug_log]) is not part of the model.
    - [requests.post], [json.loads] and the pandas functions behind
      [create_csv] are not code of the repository: the first two are
      parameters of the extractor, the last are modelled from the
      specification. *)

From Stdlib Require Import ZArith List String Ascii Bool Lia.
From Stdlib Require Import Floats.SpecFloat.
Import ListNotations.

Local Open Scope list_scope.
Local Open Scope string_scope.

(** ** Exceptions *)

(** The exception classes that the modelled code can meet.  All of them are
    subclasses of [Exception]; [JSONDecodeError] is a subclass of
    [ValueError]. *)
Inductive exn : Type :=
| RequestException
| JSONDecodeError
| AttributeError
| TypeError
| ValueError
| OverflowError.

Inductive result (A : Type) : Type :=
| Ok (a : A)
| Raise (e : exn).

Arguments Ok {A} a.
Arguments Raise {A} e.

Definition exn_eqb (a b : exn) : bool :=
  match a, b with
  | RequestException, RequestException
  | JSONDecodeError, JSONDecodeError
  | AttributeError, AttributeError
  | TypeError, TypeError
  | ValueError, ValueError
  | OverflowError, OverflowError => true
  | _, _ => false
  end.

(** [issubclass e cls], for the classes above. *)
Definition issubclass (e cls : exn) : bool :=
  exn_eqb e cls ||
  match e, cls with
  | JSONDecodeError, ValueError => true
  | _, _ => false
  end.

Definition rbind {A B : Type} (r : result A) (k : A -> result B) : result B :=
  match r with
  | Ok a => k a
  | Raise e => Raise e
  end.

(** ** Python strings *)

Module PyStr.

Definition code (c : ascii) : nat := nat_of_ascii c.

Definition between (lo hi n : nat) : bool := (lo <=? n)%nat && (n <=? hi)%nat.

(** [str.isspace] on one character of the Latin-1 range. *)
Definition isspace (c : ascii) : bool :=
  let n := code c in
  between 9 13 n || between 28 32 n || (n =? 133)%nat || (n =? 160)%nat.

Definition isdigit (c : ascii) : bool := between 48 57 (code c).

Fixpoint lstrip (s : string) : string :=
  match s with
  | EmptyString => EmptyString
  | String c s' => if isspace c then lstrip s' else s
  end.

Fixpoint rstrip (s : string) : string :=
  match s with
  | EmptyString => EmptyString
  | String c s' =>
      match rstrip s' with
      | EmptyString => if isspace c then EmptyString else String c EmptyString
      | r => String c r
      end
  end.

(** [s.strip()] *)
Definition strip (s : string) : string := rstrip (lstrip s).

Definition lower_char (c : ascii) : ascii :=
  let n := code c in
  if between 65 90 n || (between 192 222 n && negb (n =? 215)%nat)
  then ascii_of_nat (n + 32)
  else c.

(** [s.lower()] *)
Fixpoint lower (s : string) : string :=
  match s with
  | EmptyString => EmptyString
  | String c s' => String (lower_char c) (lower s')
  end.

(** [s.split(sep)] for a one-character separator; the result is never
    empty. *)
Fixpoint split (sep : ascii) (s : string) : list string :=
  match s with
  | EmptyString => [EmptyString]
  | String c s' =>
      if Ascii.eqb c sep then EmptyString :: split sep s'
      else match split sep s' with
           | p :: ps => String c p :: ps
           | [] => [String c EmptyString]
           end
  end.

(** [sep.join(parts)] *)
Fixpoint join (sep : string) (parts : list string) : string :=
  match parts with
  | [] => EmptyString
  | [p] => p
  | p :: ps => p ++ sep ++ join sep ps
  end.

(** [x in xs] for a tuple of strings. *)
Fixpoint str_in (x : string) (xs : list string) : bool :=
  match xs with
  | [] => false
  | y :: ys => String.eqb x y || str_in x ys
  end.

Fixpoint contains_char (c : ascii) (s : string) : bool :=
  match s with
  | EmptyString => false
  | String d s' => Ascii.eqb c d || contains_char c s'
  end.

Fixpoint repeat_char (c : ascii) (n : nat) : string :=
  match n with
  | O => EmptyString
  | S n' => String c (repeat_char c n')
  end.

Definition of_char (c : ascii) : string := String c EmptyString.

Definition dquote : ascii := ascii_of_nat 34.
Definition squote : ascii := ascii_of_nat 39.
Definition backslash : ascii := ascii_of_nat 92.
Definition newline : ascii := ascii_of_nat 10.
Definition carriage_return : ascii := ascii_of_nat 13.
Definition tab : ascii := ascii_of_nat 9.

Definition hex_digit (n : nat) : ascii :=
  if (n <? 10)%nat then ascii_of_nat (48 + n) else ascii_of_nat (87 + n).

(** One character of [repr(s)], given the quote character in use. *)
Definition repr_char (quote c : ascii) : string :=
  let n := code c in
  if Ascii.eqb c quote || Ascii.eqb c backslash then String backslash (of_char c)
  else if Ascii.eqb c tab then String backslash "t"
  else if Ascii.eqb c newline then String backslash "n"
  else if Ascii.eqb c carriage_return then String backslash "r"
  else if (n <? 32)%nat || between 127 160 n || (n =? 173)%nat
  then String backslash (String "x" (String (hex_digit (n / 16)) (of_char (hex_digit (n mod 16)))))
  else of_char c.

Fixpoint repr_body (quote : ascii) (s : string) : string :=
  match s with
  | EmptyString => EmptyString
  | String c s' => repr_char quote c ++ repr_body quote s'
  end.

(** [repr(s)]: single quotes unless the text has a single quote and no
    double quote. *)
Definition repr (s : string) : string :=
  let quote :=
    if contains_char squote s && negb (contains_char dquote s) then dquote else squote in
  String quote (repr_body quote s ++ of_char quote).

End PyStr.

(** ** Python integers as text *)

Module PyInt.

Local Open Scope Z_scope.

Definition digit_char (d : Z) : ascii := ascii_of_nat (48 + Z.to_nat d).

(** Decimal digits of a non-negative number, most significant first; the
    fuel is the number of binary digits, which bounds the decimal ones. *)
Fixpoint digits_fuel (fuel : nat) (n : Z) (acc : string) : string :=
  match fuel with
  | O => acc
  | S fuel' =>
      let acc' := String (digit_char (n mod 10)) acc in
      if n <? 10 then acc' else digits_fuel fuel' (n / 10) acc'
  end.

Definition digits (n : Z) : string :=
  digits_fuel (S (Z.to_nat (Z.log2 n))) n EmptyString.

(** [repr(n)] and [str(n)] for an [int]. *)
Definition repr (n : Z) : string :=
  if n <? 0 then String "-" (digits (- n)) else digits n.

(** Value of a string of decimal digits. *)
Fixpoint value_acc (acc : Z) (s : string) : Z :=
  match s with
  | EmptyString => acc
  | String c s' => value_acc (10 * acc + (Z.of_nat (nat_of_ascii c) - 48)) s'
  end.

Definition value (s : string) : Z := value_acc 0 s.

End PyInt.

(** ** Python floats *)

Module PyFloat.

Local Open Scope Z_scope.

Definition prec : Z := 53.
Definition emax : Z := 1024.

Definition float : Type := spec_float.

Definition zero : float := S754_zero false.

Definition eqb_bits (x y : float) : bool :=
  match x, y with
  | S754_zero a, S754_zero b => Bool.eqb a b
  | S754_infinity a, S754_infinity b => Bool.eqb a b
  | S754_nan, S754_nan => true
  | S754_finite a m e, S754_finite b n f => Bool.eqb a b && Pos.eqb m n && Z.eqb e f
  | _, _ => false
  end.

(** The binary64 number nearest to the integer [z] (ties to even),
    infinite when [z] is out of range. *)
Definition round_Z (z : Z) : float := binary_normalize prec emax z 0 false.

(** [float(n)] for an [int]: [OverflowError] when [n] is too large. *)
Definition of_int (z : Z) : result float :=
  match round_Z z with
  | S754_infinity _ => Raise OverflowError
  | f => Ok f
  end.

(** The binary64 number nearest to [(-1)^neg * m * 10^e], for [0 <= m]. *)
Definition of_decimal (neg : bool) (m e : Z) : float :=
  match m with
  | Z0 => S754_zero neg
  | Zpos _ =>
      if 0 <=? e then
        match m * 10 ^ e with
        | Zpos p => binary_round prec emax neg p 0
        | _ => S754_nan
        end
      else
        let q := 10 ^ (- e) in
        let s := Z.max 0 (Zdigits2 q - Zdigits2 m + prec + 2) in
        let (d, r) := Z.div_eucl (Z.shiftl m s) q in
        binary_round_aux prec emax neg d (- s) (new_location q r)
  | Zneg _ => S754_nan
  end.

(** *** [float(s)] for a string *)

(** Leading and trailing white space that [float] ignores: the C space
    characters, and the two non-ASCII spaces of the Latin-1 range. *)
Definition isspace (c : ascii) : bool :=
  let n := nat_of_ascii c in
  PyStr.between 9 13 n || (n =? 32)%nat || (n =? 133)%nat || (n =? 160)%nat.

Fixpoint lstrip (s : string) : string :=
  match s with
  | EmptyString => EmptyString
  | String c s' => if isspace c then lstrip s' else s
  end.

Fixpoint rstrip (s : string) : string :=
  match s with
  | EmptyString => EmptyString
  | String c s' =>
      match rstrip s' with
      | EmptyString => if isspace c then EmptyString else String c EmptyString
      | r => String c r
      end
  end.

(** Underscores may only stand between two digits; they are removed. *)
Fixpoint remove_underscores (prev : option ascii) (s : string) : option string :=
  let prev_is (p : ascii -> bool) :=
    match prev with Some c => p c | None => false end in
  match s with
  | EmptyString => if prev_is (Ascii.eqb "_") then None else Some EmptyString
  | String c s' =>
      if Ascii.eqb c "_" then
        if prev_is PyStr.isdigit then remove_underscores (Some c) s' else None
      else if prev_is (Ascii.eqb "_") && negb (PyStr.isdigit c) then None
      else option_map (String c) (remove_underscores (Some c) s')
  end.

(** The longest prefix of digits, and the rest. *)
Fixpoint span_digits (s : string) : string * string :=
  match s with
  | EmptyString => (EmptyString, EmptyString)
  | String c s' =>
      if PyStr.isdigit c then
        let (d, r) := span_digits s' in (String c d, r)
      else (EmptyString, s)
  end.

Definition read_sign (s : string) : bool * string :=
  match s with
  | String "-" s' => (true, s')
  | String "+" s' => (false, s')
  | _ => (false, s)
  end.

Definition ascii_lower_char (c : ascii) : ascii :=
  let n := nat_of_ascii c in
  if PyStr.between 65 90 n then ascii_of_nat (n + 32) else c.

Fixpoint ascii_lower (s : string) : string :=
  match s with
  | EmptyString => EmptyString
  | String c s' => String (ascii_lower_char c) (ascii_lower s')
  end.

(** [inf], [infinity] and [nan], in any case, with an optional sign. *)
Definition parse_inf_or_nan (s : string) : option float :=
  let (neg, body) := read_sign s in
  let w := ascii_lower body in
  if String.eqb w "inf" || String.eqb w "infinity" then Some (S754_infinity neg)
  else if String.eqb w "nan" then Some S754_nan
  else None.

(** The exponent part: [e] or [E], an optional sign and at least one
    digit; when no digit follows, nothing is read. *)
Definition read_exponent (s : string) : Z * string :=
  match s with
  | String c t =>
      if Ascii.eqb c "e" || Ascii.eqb c "E" then
        let (eneg, t1) := read_sign t in
        let (ed, t2) := span_digits t1 in
        match ed with
        | EmptyString => (0, s)
        | _ => ((if eneg then - PyInt.value ed else PyInt.value ed), t2)
        end
      else (0, s)
  | EmptyString => (0, s)
  end.

(** A decimal number: digits with an optional point and exponent, at
    least one digit before the exponent, nothing left over. *)
Definition parse_decimal (s : string) : option float :=
  let (neg, s1) := read_sign s in
  let (ip, s2) := span_digits s1 in
  let (fp, s3) :=
    match s2 with
    | String "." t => span_digits t
    | _ => (EmptyString, s2)
    end in
  match ip ++ fp with
  | EmptyString => None
  | ds =>
      let (ex, rest) := read_exponent s3 in
      match rest with
      | EmptyString =>
          Some (of_decimal neg (PyInt.value ds) (ex - Z.of_nat (String.length fp)))
      | _ => None
      end
  end.

(** [float(s)]: [None] stands for [ValueError]. *)
Definition of_str (s : string) : option float :=
  match remove_underscores None (rstrip (lstrip s)) with
  | None => None
  | Some t =>
      match parse_decimal t with
      | Some f => Some f
      | None => parse_inf_or_nan t
      end
  end.

(** *** [repr(x)] for a float: the shortest digits that read back as [x] *)

(** The exact value of a finite float, as a fraction. *)
Definition fraction (m : positive) (e : Z) : Z * Z :=
  if 0 <=? e then (Zpos m * 2 ^ e, 1) else (Zpos m, 2 ^ (- e)).

(** [10^k <= num / den] *)
Definition pow10_le (num den k : Z) : bool :=
  if 0 <=? k then 10 ^ k * den <=? num else den <=? num * 10 ^ (- k).

Fixpoint climb (fuel : nat) (num den k : Z) : Z :=
  match fuel with
  | O => k
  | S fuel' => if pow10_le num den (k + 1) then climb fuel' num den (k + 1) else k
  end.

(** The decimal exponent: the largest [k] with [10^k <= num / den]. *)
Definition decimal_exponent (num den : Z) : Z :=
  climb 4 num den ((Z.log2 num - Z.log2 den - 1) * 30103 / 100000 - 1).

Fixpoint rstrip_zeros (s : string) : string :=
  match s with
  | EmptyString => EmptyString
  | String c s' =>
      match rstrip_zeros s' with
      | EmptyString => if Ascii.eqb c "0" then EmptyString else String c EmptyString
      | r => String c r
      end
  end.

(** The two [n]-digit neighbours of [num / den], nearest first, each
    with its decimal exponent. *)
Definition neighbours (num den k n : Z) : list (Z * Z) :=
  let j := n - 1 - k in
  let (N, D) := if 0 <=? j then (num * 10 ^ j, den) else (num, den * 10 ^ (- j)) in
  let (lo, r) := Z.div_eucl N D in
  let below := (lo, - j) in
  let above := (lo + 1, - j) in
  match 2 * r ?= D with
  | Lt => [below; above]
  | Gt => [above; below]
  | Eq => if Z.even lo then [below; above] else [above; below]
  end.

Definition reads_back (x : float) (c : Z * Z) : bool :=
  eqb_bits (of_decimal false (fst c) (snd c)) x.

(** Try 1, 2, ... digits; seventeen always suffice. *)
Fixpoint shortest (fuel : nat) (x : float) (num den k n : Z) : Z * Z :=
  let cs := neighbours num den k n in
  match fuel with
  | O => hd (0, 0) cs
  | S fuel' =>
      match filter (reads_back x) cs with
      | c :: _ => c
      | [] => shortest fuel' x num den k (n + 1)
      end
  end.

Definition exponent_text (e : Z) : string :=
  let a := PyInt.digits (Z.abs e) in
  String (if e <? 0 then "-"%char else "+"%char)
    (if (String.length a <? 2)%nat then String "0" a else a).

(** The digits [ds] with the decimal point after [decpt] of them, in the
    layout of [repr]. *)
Definition layout (ds : string) (decpt : Z) : string :=
  let len := Z.of_nat (String.length ds) in
  if (decpt <=? -4) || (16 <? decpt) then
    match ds with
    | String d EmptyString => String d (String "e" (exponent_text (decpt - 1)))
    | String d rest => String d (String "." (rest ++ String "e" (exponent_text (decpt - 1))))
    | EmptyString => EmptyString
    end
  else if decpt <=? 0 then
    String "0" (String "." (PyStr.repeat_char "0" (Z.to_nat (- decpt)) ++ ds))
  else if len <=? decpt then
    ds ++ PyStr.repeat_char "0" (Z.to_nat (decpt - len)) ++ ".0"
  else
    substring 0 (Z.to_nat decpt) ds ++ String "." (substring (Z.to_nat decpt) (Z.to_nat (len - decpt)) ds).

Definition repr_finite (m : positive) (e : Z) : string :=
  let (num, den) := fraction m e in
  let k := decimal_exponent num den in
  let (c, j) := shortest 16 (S754_finite false m e) num den k 1 in
  let ds := PyInt.digits c in
  layout (rstrip_zeros ds) (Z.of_nat (String.length ds) + j).

(** [repr(x)] and [str(x)] for a [float]. *)
Definition repr (x : float) : string :=
  match x with
  | S754_nan => "nan"
  | S754_infinity false => "inf"
  | S754_infinity true => "-inf"
  | S754_zero false => "0.0"
  | S754_zero true => "-0.0"
  | S754_finite false m e => repr_finite m e
  | S754_finite true m e => String "-" (repr_finite m e)
  end.

(** [x + y] on floats. *)
Definition add (x y : float) : float := SFadd prec emax x y.

End PyFloat.

(** ** Python values *)

(** The values that travel through the pipeline: what [json.loads] can
    produce and what the pipeline itself builds. *)
#[local] Set Warnings "-register-all".

Inductive pyval : Type :=
| PNone
| PBool (b : bool)
| PInt (z : Z)
| PFloat (f : PyFloat.float)
| PStr (s : string)
| PList (l : list pyval)
| PDict (d : list (string * pyval)).

Definition dict : Type := list (string * pyval).

Module PyVal.

(** [repr(v)] *)
Fixpoint repr (v : pyval) : string :=
  match v with
  | PNone => "None"
  | PBool true => "True"
  | PBool false => "False"
  | PInt z => PyInt.repr z
  | PFloat f => PyFloat.repr f
  | PStr s => PyStr.repr s
  | PList l => "[" ++ PyStr.join ", " (map repr l) ++ "]"
  | PDict d =>
      "{" ++ PyStr.join ", "
               (map (fun kv : string * pyval =>
                       let (k, x) := kv in PyStr.repr k ++ ": " ++ repr x) d)
          ++ "}"
  end.

(** [str(v)] *)
Definition str (v : pyval) : string :=
  match v with
  | PStr s => s
  | _ => repr v
  end.

Definition is_none (v : pyval) : bool :=
  match v with PNone => true | _ => false end.

(** [isinstance(v, dict)] and [isinstance(v, list)] are pattern matches
    on [PDict] and [PList]; [isinstance(v, (int, float))] also holds of
    [bool], a subclass of [int]. *)
Definition isinstance_int_or_float (v : pyval) : bool :=
  match v with
  | PBool _ | PInt _ | PFloat _ => true
  | _ => false
  end.

(** [float(v)] *)
Definition float (v : pyval) : result PyFloat.float :=
  match v with
  | PBool b => PyFloat.of_int (if b then 1 else 0)
  | PInt z => PyFloat.of_int z
  | PFloat f => Ok f
  | PStr s =>
      match PyFloat.of_str s with
      | Some f => Ok f
      | None => Raise ValueError
      end
  | PNone | PList _ | PDict _ => Raise TypeError
  end.

Fixpoint lookup (d : dict) (k : string) : option pyval :=
  match d with
  | [] => None
  | (k', v) :: d' => if String.eqb k k' then Some v else lookup d' k
  end.

(** [d.get(k, default)] *)
Definition get (d : dict) (k : string) (default : pyval) : pyval :=
  match lookup d k with
  | Some v => v
  | None => default
  end.

(** [d[k] = v]: an existing key keeps its place, a new one goes last. *)
Fixpoint setitem (d : dict) (k : string) (v : pyval) : dict :=
  match d with
  | [] => [(k, v)]
  | (k', v') :: d' =>
      if String.eqb k k' then (k, v) :: d' else (k', v') :: setitem d' k v
  end.

(** Truth value of a dictionary: non-empty. *)
Definition dict_truthy (d : dict) : bool :=
  match d with [] => false | _ :: _ => true end.

(** Truth value of a string: non-empty. *)
Definition str_truthy (s : string) : bool :=
  match s with EmptyString => false | String _ _ => true end.

End PyVal.

(** [try: body  except classes: handler] *)
Definition try_except {A : Type} (body : result A) (catches : exn -> bool)
    (handler : exn -> result A) : result A :=
  match body with
  | Ok a => Ok a
  | Raise e => if catches e then handler e else Raise e
  end.

(** Every class of [exn] derives from [Exception]. *)
Definition is_Exception (e : exn) : bool := true.

(** ** app/pipeline/extractor.py *)

Module Extractor.

Definition OLLAMA_URL : string := "http://localhost:11434/api/generate".
Definition MODEL : string := "tinyllama".

Definition nl : string := PyStr.of_char PyStr.newline.

(** The f-string of [ai_extract]. *)
Definition prompt (content : string) : string :=
  nl ++ "Extract these fields from the financial document:" ++ nl ++ nl
     ++ "date" ++ nl ++ "vendor" ++ nl ++ "amount" ++ nl ++ "tax" ++ nl ++ nl
     ++ "Return ONLY valid JSON." ++ nl ++ nl
     ++ "Document:" ++ nl ++ content ++ nl.

(** The [json=] argument of the request. *)
Definition payload (content : string) : dict :=
  [("model", PStr MODEL); ("prompt", PStr (prompt content)); ("stream", PBool false)].

(** What [requests.post] hands back: [response.json()] decodes the body
    or raises. *)
Record Response : Type := { json : result pyval }.

(** [re.search(r"\{.*\}", text, re.DOTALL)]: from the first opening
    brace to the last closing brace after it. *)
Fixpoint from_first_lbrace (s : string) : option string :=
  match s with
  | EmptyString => None
  | String c s' => if Ascii.eqb c "{" then Some s' else from_first_lbrace s'
  end.

Fixpoint through_last_rbrace (s : string) : option string :=
  match s with
  | EmptyString => None
  | String c s' =>
      match through_last_rbrace s' with
      | Some p => Some (String c p)
      | None => if Ascii.eqb c "}" then Some (String c EmptyString) else None
      end
  end.

Definition re_search_braces (text : string) : option string :=
  match from_first_lbrace text with
  | None => None
  | Some rest => option_map (String "{") (through_last_rbrace rest)
  end.

Section Service.

(** The model service behind [requests.post(url, json=payload)]. *)
Variable requests_post : string -> dict -> result Response.

(** [json.loads] on a text whose first character is an opening brace:
    a dictionary, or an exception. *)
Variable json_loads : string -> result dict.

(** The body of the [try] block; [Ok None] when control leaves the
    block without returning. *)
Definition ai_extract_try (content : string) : result (option dict) :=
  rbind (requests_post OLLAMA_URL (payload content)) (fun response =>
  rbind (json response) (fun data =>
  rbind (match data with
         | PDict d => Ok (PyVal.get d "response" (PStr EmptyString))
         | _ => Raise AttributeError
         end) (fun value =>
  rbind (match value with
         | PStr s => Ok (PyStr.strip s)
         | _ => Raise AttributeError
         end) (fun text =>
  match re_search_braces text with
  | Some group => rbind (json_loads group) (fun d => Ok (Some d))
  | None => Ok None
  end)))).

Definition ai_extract (content : string) : result (option dict) :=
  try_except (ai_extract_try content) is_Exception (fun _ => Ok None).

Definition fallback_extract (content filename : string) : dict :=
  let base_name :=
    if PyVal.str_truthy filename
    then hd EmptyString (PyStr.split "." filename)
    else EmptyString in
  [("date", PStr EmptyString);
   ("vendor", PStr base_name);
   ("amount", PInt 0);
   ("tax", PInt 0);
   ("source", PStr (if PyVal.str_truthy filename then filename else EmptyString))].

Definition extract_data (filename content : string) : result dict :=
  rbind (ai_extract content) (fun ai_result =>
  match ai_result with
  | Some d =>
      if PyVal.dict_truthy d
      then Ok (PyVal.setitem d "source" (PStr filename))
      else Ok (fallback_extract content filename)
  | None => Ok (fallback_extract content filename)
  end).

End Service.

End Extractor.

(** ** uuid.uuid4 *)

Module Uuid.

Local Open Scope Z_scope.

(** The operating system's entropy: the [n]-th read of sixteen bytes
    yields [tape n], and [drawn] counts the reads made so far. *)
Record entropy : Type := { tape : nat -> Z; drawn : nat }.

(** [int.from_bytes(os.urandom(16), "big")] *)
Definition os_urandom16 (g : entropy) : Z * entropy :=
  (tape g (drawn g) mod 2 ^ 128, {| tape := tape g; drawn := S (drawn g) |}).

(** [UUID(bytes=..., version=4)]: the variant and version bits are
    overwritten, the other 122 bits are kept. *)
Definition set_version4 (i : Z) : Z :=
  let i := Z.land i (Z.lnot (Z.shiftl 49152 48)) in
  let i := Z.lor i (Z.shiftl 32768 48) in
  let i := Z.land i (Z.lnot (Z.shiftl 61440 64)) in
  Z.lor i (Z.shiftl 4 76).

(** The last [n] hexadecimal digits of [i], most significant first. *)
Fixpoint hex (n : nat) (i : Z) : string :=
  match n with
  | O => EmptyString
  | S n' => hex n' (i / 16) ++ PyStr.of_char (PyStr.hex_digit (Z.to_nat (i mod 16)))
  end.

(** [s[:n]] and [s[n:]] *)
Fixpoint take (n : nat) (s : string) : string :=
  match n, s with
  | S n', String c s' => String c (take n' s')
  | _, _ => EmptyString
  end.

Fixpoint drop (n : nat) (s : string) : string :=
  match n, s with
  | S n', String _ s' => drop n' s'
  | _, _ => s
  end.

(** The five groups of the 32 digits [h], joined by dashes. *)
Definition dashed (h : string) : string :=
  take 8 h ++ "-" ++ take 4 (drop 8 h) ++ "-" ++ take 4 (drop 12 h) ++ "-"
    ++ take 4 (drop 16 h) ++ "-" ++ drop 20 h.

(** [str(u)] for a UUID whose integer value is [i]. *)
Definition str (i : Z) : string := dashed (hex 32 i).

(** [str(uuid.uuid4())] *)
Definition uuid4_str (g : entropy) : string * entropy :=
  let (r, g') := os_urandom16 g in (str (set_version4 r), g').

End Uuid.

(** ** app/pipeline/aggregator.py *)

Module Aggregator.

(** Computations that may raise and that read entropy. *)
Definition M (A : Type) : Type := Uuid.entropy -> result A * Uuid.entropy.

Definition ret {A : Type} (a : A) : M A := fun g => (Ok a, g).

Definition bind {A B : Type} (m : M A) (k : A -> M B) : M B :=
  fun g =>
    match m g with
    | (Ok a, g') => k a g'
    | (Raise e, g') => (Raise e, g')
    end.

Definition lift {A : Type} (r : result A) : M A := fun g => (r, g).

Definition uuid4_str : M string :=
  fun g => let (s, g') := Uuid.uuid4_str g in (Ok s, g').

Fixpoint mapM {A B : Type} (f : A -> M B) (l : list A) : M (list B) :=
  match l with
  | [] => ret []
  | a :: l' => bind (f a) (fun b => bind (mapM f l') (fun bs => ret (b :: bs)))
  end.

Definition CANONICAL_COLUMNS : list string :=
  ["date"; "vendor"; "amount"; "tax"; "source"; "record_id"].

Record AggregationResult : Type := {
  records : list dict;
  total_amount : pyval;
  total_tax : pyval;
  document_count : nat
}.

(** [debug_log] only prints; standard output is not part of the model. *)
Definition debug_log (scope message : string) : unit := tt.

Definition _safe_float (value : pyval) : result PyFloat.float :=
  if PyVal.isinstance_int_or_float value then PyVal.float value
  else
    try_except (PyVal.float value)
      (fun e => issubclass e TypeError || issubclass e ValueError)
      (fun _ => Ok PyFloat.zero).

Definition _flatten_records (results : list pyval) : list dict :=
  fold_left
    (fun flat item =>
       match item with
       | PDict d => (flat ++ [d])%list
       | PList l =>
           fold_left
             (fun flat rec =>
                match rec with
                | PDict d => (flat ++ [d])%list
                | _ => flat
                end) l flat
       | _ => flat
       end) results [].

Definition is_placeholder (v : pyval) : bool :=
  PyVal.is_none v
  || PyStr.str_in (PyStr.lower (PyStr.strip (PyVal.str v)))
       [EmptyString; "unknown"; "n/a"].

Definition _normalize_record (record : dict) : M dict :=
  let raw_date := PyVal.get record "date" (PStr EmptyString) in
  let raw_date := if is_placeholder raw_date then PStr EmptyString else raw_date in
  let raw_vendor := PyVal.get record "vendor" (PStr EmptyString) in
  let raw_vendor := if is_placeholder raw_vendor then PStr EmptyString else raw_vendor in
  bind (lift (_safe_float (PyVal.get record "amount" (PInt 0)))) (fun amount =>
  bind (lift (_safe_float (PyVal.get record "tax" (PInt 0)))) (fun tax =>
  let source := PyVal.str (PyVal.get record "source" (PStr EmptyString)) in
  bind uuid4_str (fun record_id =>
  ret [("date", PStr (PyVal.str raw_date));
       ("vendor", PStr (PyVal.str raw_vendor));
       ("amount", PFloat amount);
       ("tax", PFloat tax);
       ("source", PStr source);
       ("record_id", PStr record_id)]))).

(** One step of [sum]: [acc + x] for a float [x]. *)
Definition sum_step (acc : pyval) (x : PyFloat.float) : result pyval :=
  match acc with
  | PInt z => rbind (PyFloat.of_int z) (fun a => Ok (PFloat (PyFloat.add a x)))
  | PFloat a => Ok (PFloat (PyFloat.add a x))
  | _ => Raise TypeError
  end.

(** [sum(xs)] for floats: the running total starts at the integer 0 and is
    rounded after every addition. *)
Definition sum_floats (xs : list PyFloat.float) : result pyval :=
  fold_left (fun acc x => rbind acc (fun a => sum_step a x)) xs (Ok (PInt 0)).

(** [sum(_safe_float(r.get(key, 0)) for r in records)]: every element is
    converted just before it is added. *)
Definition sum_field (key : string) (records : list dict) : result pyval :=
  fold_left
    (fun acc r =>
       rbind acc (fun a =>
       rbind (_safe_float (PyVal.get r key (PInt 0))) (fun x => sum_step a x)))
    records (Ok (PInt 0)).

Definition merge_data (extraction_results : list pyval) : M (list dict) :=
  let records := _flatten_records extraction_results in
  bind (mapM _normalize_record records) (fun normalized =>
  let _ := debug_log "AGGREGATOR" "Flattened" in
  bind (lift (sum_field "amount" normalized)) (fun total_amt =>
  let _ := debug_log "AGGREGATOR" "Total amount" in
  ret normalized)).

Definition merge_data_detailed (extraction_results : list pyval)
  : M AggregationResult :=
  bind (merge_data extraction_results) (fun records =>
  bind (lift (sum_field "amount" records)) (fun total_amount =>
  bind (lift (sum_field "tax" records)) (fun total_tax =>
  ret {| records := records;
         total_amount := total_amount;
         total_tax := total_tax;
         document_count := List.length extraction_results |}))).

End Aggregator.

(** ** app/utils/csv_converter.py *)

Module CsvConverter.

(** The files on disk: the text stored under each path. *)
Definition files : Type := string -> option string.

Definition write_file (path text : string) (fs : files) : files :=
  fun p => if String.eqb p path then Some text else fs p.

(** Modelled from the spec: [pandas.DataFrame(data)], which is not part of
    the repository.  The columns are the keys of the records, in the
    order in which they first appear. *)
Definition DataFrame_columns (data : list dict) : list string :=
  fold_left
    (fun cols r =>
       fold_left
         (fun cols k => if PyStr.str_in k cols then cols else (cols ++ [k])%list)
         (map fst r) cols)
    data [].

(** Modelled from the spec: the fields of a row of [DataFrame.to_csv],
    which is not part of the repository.  The specification asks for
    comma-separated values written as text and leaves open how a value that
    itself holds a comma, a double quote or a line break is written; such a
    value is enclosed in double quotes, with inner double quotes doubled, so
    that every record stays one row. *)
Definition needs_quotes (s : string) : bool :=
  PyStr.contains_char "," s || PyStr.contains_char PyStr.dquote s
  || PyStr.contains_char PyStr.newline s
  || PyStr.contains_char PyStr.carriage_return s.

Fixpoint double_quotes (s : string) : string :=
  match s with
  | EmptyString => EmptyString
  | String c s' =>
      if Ascii.eqb c PyStr.dquote
      then String c (String c (double_quotes s'))
      else String c (double_quotes s')
  end.

Definition field (s : string) : string :=
  if needs_quotes s
  then String PyStr.dquote (double_quotes s ++ PyStr.of_char PyStr.dquote)
  else s.

(** Modelled from the spec: the text of a cell of [DataFrame.to_csv]: the
    value written as text, empty when the record has no such key. *)
Definition cell (r : dict) (col : string) : string :=
  match PyVal.lookup r col with
  | Some v => PyVal.str v
  | None => EmptyString
  end.

Definition header_row (cols : list string) : string :=
  PyStr.join "," (map field cols).

Definition data_row (cols : list string) (r : dict) : string :=
  PyStr.join "," (map (fun c => field (cell r c)) cols).

(** Modelled from the spec: the rows of the file, each one ended by a line
    break. *)
Fixpoint lines (rows : list string) : string :=
  match rows with
  | [] => EmptyString
  | r :: rows' => r ++ PyStr.of_char PyStr.newline ++ lines rows'
  end.

(** Modelled from the spec: [DataFrame.to_csv(path, index=False)], which is
    not part of the repository.  Comma-separated text: one header row
    with the column names, then one row per record with its values
    written as text, and nothing after the last row. *)
Definition to_csv (data : list dict) : string :=
  let cols := DataFrame_columns data in
  lines (header_row cols :: map (data_row cols) data).

Definition create_csv (data : list dict) (path : string) (fs : files) : files :=
  write_file path (to_csv data) fs.

End CsvConverter.

(** ** The specification's vocabulary *)

Module Spec.

(** The mapping elements of a sequence, in order. *)
Definition mappings_of (l : list pyval) : list dict :=
  flat_map (fun rec => match rec with PDict d => [d] | _ => [] end) l.

(** What one input item contributes: a mapping contributes itself, a
    sequence contributes its mapping elements, anything else nothing. *)
Definition contribution (item : pyval) : list dict :=
  match item with
  | PDict d => [d]
  | PList l => mappings_of l
  | _ => []
  end.

(** Flattening, item after item. *)
Definition flatten (items : list pyval) : list dict :=
  flat_map contribution items.

Definition is_mapping (v : pyval) : bool :=
  match v with PDict _ => true | _ => false end.

(** 1 for a mapping, the number of mapping elements for a sequence, 0 for
    anything else. *)
Definition item_count (item : pyval) : nat :=
  match item with
  | PDict _ => 1
  | PList l => List.length (filter is_mapping l)
  | _ => 0
  end.

Definition expected_length (items : list pyval) : nat :=
  list_sum (map item_count items).

(** The name up to its first dot, or the whole name without a dot. *)
Fixpoint stem (name : string) : string :=
  match name with
  | EmptyString => EmptyString
  | String c rest => if Ascii.eqb c "." then EmptyString else String c (stem rest)
  end.

(** The fallback record for a document name. *)
Definition fallback_record (name : string) : dict :=
  [("date", PStr EmptyString);
   ("vendor", PStr (stem name));
   ("amount", PInt 0);
   ("tax", PInt 0);
   ("source", PStr name)].

(** Empty or made of white space only. *)
Fixpoint is_blank (s : string) : bool :=
  match s with
  | EmptyString => true
  | String c s' => PyStr.isspace c && is_blank s'
  end.

(** A placeholder: null, or a text that is blank, "unknown" or "n/a"
    once trimmed and put in lower case. *)
Definition placeholder (v : pyval) : bool :=
  match v with
  | PNone => true
  | PStr s =>
      is_blank s
      || String.eqb (PyStr.lower (PyStr.strip s)) "unknown"
      || String.eqb (PyStr.lower (PyStr.strip s)) "n/a"
  | _ => false
  end.

(** A canonical record: the six canonical fields, in canonical order,
    with text for [date], [vendor], [source] and [record_id] and floats
    for [amount] and [tax]. *)
Definition canonical (date vendor : string) (amount tax : PyFloat.float)
    (source record_id : string) : dict :=
  [("date", PStr date);
   ("vendor", PStr vendor);
   ("amount", PFloat amount);
   ("tax", PFloat tax);
   ("source", PStr source);
   ("record_id", PStr record_id)].

Definition CanonicalRecord (c : dict) : Prop :=
  exists date vendor amount tax source record_id,
    c = canonical date vendor amount tax source record_id.

(** The float stored under [key], for the totals. *)
Definition float_field (key : string) (r : dict) : PyFloat.float :=
  match PyVal.lookup r key with
  | Some (PFloat x) => x
  | _ => PyFloat.zero
  end.

Definition is_raise {A : Type} (r : result A) : bool :=
  match r with Raise _ => true | Ok _ => false end.

(** A raw record whose [amount] or [tax] is an integer too large for a
    float. *)
Definition overflows (r : dict) : bool :=
  is_raise (Aggregator._safe_float (PyVal.get r "amount" (PInt 0)))
  || is_raise (Aggregator._safe_float (PyVal.get r "tax" (PInt 0))).

(** The identifier that the [n]-th read of entropy gives rise to. *)
Definition uuid_of_draw (tape : nat -> Z) (n : nat) : Z :=
  Uuid.set_version4 (tape n mod 2 ^ 128).

(** The entropy after [n] more reads. *)
Definition advance (g : Uuid.entropy) (n : nat) : Uuid.entropy :=
  {| Uuid.tape := Uuid.tape g; Uuid.drawn := Uuid.drawn g + n |}.

(** The text kept for [date] and [vendor]. *)
Definition cleaned (v : pyval) : string :=
  PyVal.str (if Aggregator.is_placeholder v then PStr EmptyString else v).

(** The canonical record of a raw record, given its identifier. *)
Definition normalized (r : dict) (rid : string) : result dict :=
  rbind (Aggregator._safe_float (PyVal.get r "amount" (PInt 0))) (fun amount =>
  rbind (Aggregator._safe_float (PyVal.get r "tax" (PInt 0))) (fun tax =>
  Ok (canonical
        (cleaned (PyVal.get r "date" (PStr EmptyString)))
        (cleaned (PyVal.get r "vendor" (PStr EmptyString)))
        amount tax
        (PyVal.str (PyVal.get r "source" (PStr EmptyString)))
        rid))).

(** The canonical records of a batch whose first record takes the
    [n]-th read of entropy. *)
Fixpoint normalized_batch (tape : nat -> Z) (n : nat) (l : list dict)
  : result (list dict) :=
  match l with
  | [] => Ok []
  | r :: l' =>
      rbind (normalized r (Uuid.str (uuid_of_draw tape n))) (fun c =>
      rbind (normalized_batch tape (S n) l') (fun cs => Ok (c :: cs)))
  end.

(** [c] is a canonical record of the raw record [r]. *)
Definition normalizes (r c : dict) : Prop :=
  exists rid, normalized r rid = Ok c.

Definition record_id (c : dict) : option pyval := PyVal.lookup c "record_id".

(** The row of a canonical record, field by field. *)
Definition canonical_row (date vendor : string) (amount tax : PyFloat.float)
    (source record_id : string) : string :=
  PyStr.join ","
    [CsvConverter.field date; CsvConverter.field vendor;
     CsvConverter.field (PyFloat.repr amount); CsvConverter.field (PyFloat.repr tax);
     CsvConverter.field source; CsvConverter.field record_id].

Definition canonical_header : string := "date,vendor,amount,tax,source,record_id".

(** Extraction fails: the service cannot be reached or errors, its answer
    is not a JSON object with a textual [response], or that text holds no
    parseable JSON object. *)
Definition extraction_fails (requests_post : string -> dict -> result Extractor.Response)
    (json_loads : string -> result dict) (content : string) : Prop :=
  match requests_post Extractor.OLLAMA_URL (Extractor.payload content) with
  | Raise _ => True
  | Ok response =>
      match Extractor.json response with
      | Raise _ => True
      | Ok (PDict body) =>
          match PyVal.get body "response" (PStr EmptyString) with
          | PStr text =>
              match Extractor.re_search_braces (PyStr.strip text) with
              | None => True
              | Some group =>
                  match json_loads group with
                  | Raise _ => True
                  | Ok _ => False
                  end
              end
          | _ => True
          end
      | Ok _ => True
      end
  end.

(** The service answers with a text in which the code finds a JSON object
    that parses to the mapping [d]. *)
Definition model_answers (requests_post : string -> dict -> result Extractor.Response)
    (json_loads : string -> result dict) (content : string) (d : dict) : Prop :=
  exists response body text group,
    requests_post Extractor.OLLAMA_URL (Extractor.payload content) = Ok response
    /\ Extractor.json response = Ok (PDict body)
    /\ PyVal.get body "response" (PStr EmptyString) = PStr text
    /\ Extractor.re_search_braces (PyStr.strip text) = Some group
    /\ json_loads group = Ok d.

(** The sum of the floats [xs] taken in order, each addition rounded to
    the nearest float, starting from [acc]. *)
Fixpoint float_sum (acc : PyFloat.float) (xs : list PyFloat.float) : PyFloat.float :=
  match xs with
  | [] => acc
  | x :: xs' => float_sum (SFadd 53 1024 acc x) xs'
  end.

(** The total of a field over the records: the sum of its floats from 0.0,
    and the integer 0 when there is no record at all. *)
Definition total (xs : list PyFloat.float) : pyval :=
  match xs with
  | [] => PInt 0
  | _ :: _ => PFloat (float_sum (S754_zero false) xs)
  end.

End Spec.

(** ** app/config.py *)

Module Config.

(** [os.getenv("DEBUG", "false").lower() in ("1", "true", "yes")], given
    the value of the environment variable, if it is set. *)
Definition DEBUG_MODE (env_DEBUG : option string) : bool :=
  PyStr.str_in
    (PyStr.lower (match env_DEBUG with Some v => v | None => "false" end))
    ["1"; "true"; "yes"].

(** [debug_log(scope, message, *args)], with standard output as the list
    of the lines printed so far: [print] writes its arguments as text,
    separated by spaces, on one line. *)
Definition debug_log (debug_mode : bool) (scope message : string)
    (args : list pyval) (stdout : list string) : list string :=
  if debug_mode then
    let prefix := "[" ++ scope ++ "]" in
    match args with
    | _ :: _ =>
        (stdout ++ [PyStr.join " " (prefix :: message :: map PyVal.str args)])%list
    | [] => (stdout ++ [PyStr.join " " [prefix; message]])%list
    end
  else stdout.

End Config.

(** ** app/main.py: the callers of the pipeline

    The file system is a parameter: a state of unknown type, with
    operations that may refuse what is asked of them (a missing directory,
    a name that is a directory, a path with a null byte, a full disk) and
    of which nothing else is assumed.  The request is taken as read: each
    uploaded file comes with its name and its bytes.  The debug lines,
    which only print, are left out. *)

Module Main.

Definition UPLOAD_FOLDER : string := "app/uploads".

Definition startswith_slash (s : string) : bool :=
  match s with
  | String c _ => Ascii.eqb c "/"
  | EmptyString => false
  end.

Fixpoint endswith_slash (s : string) : bool :=
  match s with
  | EmptyString => false
  | String c EmptyString => Ascii.eqb c "/"
  | String _ s' => endswith_slash s'
  end.

(** [os.path.join(a, b)] on a POSIX system. *)
Definition path_join (a b : string) : string :=
  if startswith_slash b then b
  else if negb (PyVal.str_truthy a) || endswith_slash a then a ++ b
  else a ++ "/" ++ b.

(** An uploaded file: the name sent by the client, if any, and its bytes. *)
Record UploadFile : Type := {
  filename : option string;
  content : string
}.

(** The answer of [upload_files]. *)
Record UploadResponse : Type := {
  message : string;
  csv_file : string;
  data : list dict
}.

(** The answer of [health_check]. *)
Record Health : Type := {
  status : string;
  api : string;
  pipeline : dict
}.

(** What a handler can raise: an exception of the pipeline, or whatever
    the file system raised ([OSError] and its subclasses, [ValueError] for
    a path that cannot be a path), kept as the text of its reason. *)
Inductive error : Type :=
| PipelineError (e : exn)
| FileSystemError (reason : string).

Inductive outcome (A : Type) : Type :=
| Returned (a : A)
| Raised (e : error).

Arguments Returned {A} a.
Arguments Raised {A} e.

(** [file.filename or "unnamed"] *)
Definition upload_name (file : UploadFile) : string :=
  match filename file with
  | Some name => if PyVal.str_truthy name then name else "unnamed"
  | None => "unnamed"
  end.

Section App.

(** The model service and the JSON decoder of the extractor, the decoder
    [bytes.decode("utf-8", errors="ignore")], and the text [str(e)] of an
    exception. *)
Variable requests_post : string -> dict -> result Extractor.Response.
Variable json_loads : string -> result dict.
Variable decode_utf8_ignore : string -> string.
Variable error_text : error -> string.

(** The file system.  [write_bytes path content] is
    [with open(path, "wb") as f: f.write(content)], [to_csv data path] is
    [pd.DataFrame(data).to_csv(path, index=False)], and [os_remove path]
    is [os.remove(path)].  Each gives the reason of the exception it
    raised, if it raised one, and the file system it left. *)
Variable Disk : Type.
Variable write_bytes : string -> string -> Disk -> option string * Disk.
Variable to_csv : list dict -> string -> Disk -> option string * Disk.
Variable os_remove : string -> Disk -> option string * Disk.

(** [create_csv(data, path)] of app/utils/csv_converter.py, on this file
    system. *)
Definition create_csv (data : list dict) (path : string) (disk : Disk)
    : option string * Disk :=
  to_csv data path disk.

(** The loop of [upload_files]: every file is stored under the upload
    folder, decoded and extracted, and its extraction appended. *)
Fixpoint process_files (files : list UploadFile) (processed_data : list pyval)
    (disk : Disk) : outcome (list pyval) * Disk :=
  match files with
  | [] => (Returned processed_data, disk)
  | file :: rest =>
      let filename := upload_name file in
      let file_path := path_join UPLOAD_FOLDER filename in
      match write_bytes file_path (content file) disk with
      | (Some reason, disk1) => (Raised (FileSystemError reason), disk1)
      | (None, disk1) =>
          let text_content := decode_utf8_ignore (content file) in
          match Extractor.extract_data requests_post json_loads filename text_content with
          | Ok extracted =>
              process_files rest (processed_data ++ [PDict extracted])%list disk1
          | Raise e => (Raised (PipelineError e), disk1)
          end
      end
  end.

Definition upload_files (files : list UploadFile) (g : Uuid.entropy) (disk : Disk)
    : outcome UploadResponse * Uuid.entropy * Disk :=
  match process_files files [] disk with
  | (Raised e, disk1) => (Raised e, g, disk1)
  | (Returned processed_data, disk1) =>
      match Aggregator.merge_data processed_data g with
      | (Raise e, g1) => (Raised (PipelineError e), g1, disk1)
      | (Ok merged, g1) =>
          let csv_path := path_join UPLOAD_FOLDER "output.csv" in
          match create_csv merged csv_path disk1 with
          | (Some reason, disk2) => (Raised (FileSystemError reason), g1, disk2)
          | (None, disk2) =>
              (Returned {| message := "Files processed successfully";
                           csv_file := "output.csv";
                           data := merged |}, g1, disk2)
          end
      end
  end.

(** The three smoke tests of [health_check], each in its own [try] whose
    handler catches every exception. *)
Definition health_check (g : Uuid.entropy) (disk : Disk)
    : Health * Uuid.entropy * Disk :=
  let status := "ok" in
  let pipeline : dict := [] in
  let '(pipeline, status) :=
    match Extractor.extract_data requests_post json_loads "test.txt" EmptyString with
    | Ok _ => (PyVal.setitem pipeline "extractor" (PStr "ok"), status)
    | Raise e =>
        (PyVal.setitem pipeline "extractor" (PStr (error_text (PipelineError e))),
         "degraded")
    end in
  let '(r, g1) :=
    Aggregator.merge_data
      [PDict [("date", PStr "2024-01-01"); ("vendor", PStr "test"); ("amount", PInt 0);
              ("tax", PInt 0); ("source", PStr "test")]] g in
  let '(pipeline, status) :=
    match r with
    | Ok _ => (PyVal.setitem pipeline "aggregator" (PStr "ok"), status)
    | Raise e =>
        (PyVal.setitem pipeline "aggregator" (PStr (error_text (PipelineError e))),
         "degraded")
    end in
  let probe := path_join UPLOAD_FOLDER ".health_check" in
  let '(pipeline, status, disk2) :=
    match create_csv [] probe disk with
    | (Some reason, disk1) =>
        (PyVal.setitem pipeline "csv_converter"
           (PStr (error_text (FileSystemError reason))), "degraded", disk1)
    | (None, disk1) =>
        let pipeline := PyVal.setitem pipeline "csv_converter" (PStr "ok") in
        match os_remove probe disk1 with
        | (Some reason, disk2) =>
            (PyVal.setitem pipeline "csv_converter"
               (PStr (error_text (FileSystemError reason))), "degraded", disk2)
        | (None, disk2) => (pipeline, status, disk2)
        end
    end in
  ({| status := status; api := "running"; pipeline := pipeline |}, g1, disk2).

End App.

End Main.

(** ** Vocabulary for the properties of the callers and helpers *)

Module Extra.

(** The text holds an opening brace with a closing brace somewhere after
    it. *)
Definition has_span (text : string) : Prop :=
  exists pre mid post, text = pre ++ "{" ++ mid ++ "}" ++ post.

(** The five data fields of a canonical record, that is all but
    [record_id]. *)
Definition data_fields : list string := ["date"; "vendor"; "amount"; "tax"; "source"].

Definition same_data (c c' : dict) : Prop :=
  Forall (fun key => PyVal.lookup c key = PyVal.lookup c' key) data_fields.

(** The extraction of an uploaded file. *)
Definition extraction_of
    (requests_post : string -> dict -> result Extractor.Response)
    (json_loads : string -> result dict) (decode_utf8_ignore : string -> string)
    (file : Main.UploadFile) : dict :=
  match Extractor.extract_data requests_post json_loads (Main.upload_name file)
          (decode_utf8_ignore (Main.content file)) with
  | Ok d => d
  | Raise _ => []
  end.

(** An operation that the file system never refuses. *)
Definition accepts {A B Disk : Type} (write : A -> B -> Disk -> option string * Disk)
  : Prop :=
  forall a b disk, fst (write a b disk) = None.

End Extra.

(** ** Sample inputs *)

(** Entropy whose reads all coincide, and entropy whose reads all differ. *)
Definition entropy_zero : Uuid.entropy := {| Uuid.tape := fun _ => 0%Z; Uuid.drawn := 0 |}.

Definition entropy_count : Uuid.entropy :=
  {| Uuid.tape := fun n => Z.of_nat n; Uuid.drawn := 0 |}.

(** A service that cannot be reached, and a decoder that rejects everything. *)
Definition service_down (url : string) (body : dict) : result Extractor.Response :=
  Raise RequestException.

Definition loads_nothing (text : string) : result dict := Raise JSONDecodeError.

(** A service whose model answers with the empty JSON object. *)
Definition service_empty_object (url : string) (body : dict) : result Extractor.Response :=
  Ok {| Extractor.json := Ok (PDict [("response", PStr " {} ")]) |}.

Definition loads_empty_object (text : string) : result dict :=
  if String.eqb text "{}" then Ok [] else Raise JSONDecodeError.

(** The extraction of the end-to-end scenario, and its canonical record
    under a given identifier. *)
Definition sample_extracted : dict :=
  [("date", PStr "2024-01-15"); ("vendor", PStr "ABC Ltd");
   ("amount", PFloat (PyFloat.round_Z 5000)); ("tax", PFloat (PyFloat.round_Z 500));
   ("source", PStr "invoice_001.txt")].

Definition sample_record (record_id : string) : dict :=
  Spec.canonical "2024-01-15" "ABC Ltd" (PyFloat.round_Z 5000) (PyFloat.round_Z 500)
    "invoice_001.txt" record_id.

(** A service whose model answers with a full JSON object. *)
Definition service_answers (url : string) (body : dict) : result Extractor.Response :=
  Ok {| Extractor.json :=
          Ok (PDict [("response", PStr "Here you go: {...} Anything else?")]) |}.

Definition loads_answer (text : string) : result dict :=
  if String.eqb text "{...}"
  then Ok [("vendor", PStr "ABC Ltd"); ("source", PStr "guess"); ("amount", PInt 5000)]
  else Raise JSONDecodeError.

(** An uploaded file. *)
Definition sample_upload : Main.UploadFile :=
  {| Main.filename := Some "invoice_001.txt"; Main.content := "Total: 5000" |}.

(** A file system that accepts every write and keeps the list of them. *)
Definition write_logged (path content : string) (disk : list (string * string))
  : option string * list (string * string) :=
  (None, (disk ++ [(path, content)])%list).

Definition to_csv_logged (data : list dict) (path : string) (disk : list (string * string))
  : option string * list (string * string) :=
  (None, (disk ++ [(path, CsvConverter.to_csv data)])%list).

(** Two documents, the second of which holds two records. *)
Definition sample_documents : list pyval :=
  [PDict [("vendor", PStr "ABC Ltd"); ("amount", PFloat (PyFloat.round_Z 5000));
          ("tax", PFloat (PyFloat.round_Z 500))];
   PList [PDict [("vendor", PStr "XYZ Corp"); ("amount", PStr "1200");
                 ("tax", PInt 120)];
          PDict [("vendor", PStr "Acme Inc"); ("amount", PInt 3500);
                 ("tax", PStr "350.0")]]].

(** * Properties *)

(** ** Flattening *)

Lemma flatten_inner_acc (l : list pyval) (acc : list dict) :
  fold_left
    (fun flat rec => match rec with PDict d => (flat ++ [d])%list | _ => flat end)
    l acc
  = (acc ++ Spec.mappings_of l)%list.
Proof.
  revert acc. induction l as [|rec l IH]; intros acc; simpl.
  - now rewrite app_nil_r.
  - rewrite IH. destruct rec; simpl; try reflexivity.
    now rewrite <- app_assoc.
Qed.

Lemma flatten_outer_acc (items : list pyval) (acc : list dict) :
  fold_left
    (fun flat item =>
       match item with
       | PDict d => (flat ++ [d])%list
       | PList l =>
           fold_left
             (fun flat rec =>
                match rec with PDict d => (flat ++ [d])%list | _ => flat end) l flat
       | _ => flat
       end) items acc
  = (acc ++ Spec.flatten items)%list.
Proof.
  revert acc. induction items as [|item items IH]; intros acc; simpl.
  - now rewrite app_nil_r.
  - rewrite IH. destruct item; simpl; try reflexivity.
    + now rewrite flatten_inner_acc, <- app_assoc.
    + now rewrite <- app_assoc.
Qed.

(** The loop of [_flatten_records] computes the specification's flattening. *)
Lemma _flatten_records_spec (items : list pyval) :
  Aggregator._flatten_records items = Spec.flatten items.
Proof. unfold Aggregator._flatten_records. now rewrite flatten_outer_acc. Qed.

Lemma mappings_of_length (l : list pyval) :
  List.length (Spec.mappings_of l) = List.length (filter Spec.is_mapping l).
Proof.
  induction l as [|v l IH]; simpl; [reflexivity|].
  destruct v; simpl; auto.
Qed.

Lemma flatten_length (items : list pyval) :
  List.length (Spec.flatten items) = Spec.expected_length items.
Proof.
  unfold Spec.flatten, Spec.expected_length.
  induction items as [|item items IH]; simpl; [reflexivity|].
  rewrite length_app, IH. f_equal.
  destruct item; simpl; auto using mappings_of_length.
Qed.

(** ** Numeric coercion *)

Lemma _safe_float_of_float (f : PyFloat.float) :
  Aggregator._safe_float (PFloat f) = Ok f.
Proof. reflexivity. Qed.

(** [_safe_float] raises only [OverflowError], and only on an integer. *)
Lemma _safe_float_raise (v : pyval) (e : exn) :
  Aggregator._safe_float v = Raise e ->
  e = OverflowError /\ exists z, v = PInt z /\ PyFloat.of_int z = Raise OverflowError.
Proof.
  destruct v as [|b|z|f|s|l|d]; unfold Aggregator._safe_float; simpl.
  - discriminate.
  - destruct b; vm_compute; discriminate.
  - unfold PyFloat.of_int. destruct (PyFloat.round_Z z) eqn:E; try discriminate.
    intros H. injection H as <-. split; [reflexivity|].
    exists z. split; [reflexivity|]. unfold PyFloat.of_int. now rewrite E.
  - discriminate.
  - destruct (PyFloat.of_str s); simpl; discriminate.
  - discriminate.
  - discriminate.
Qed.

(** ** Normalization, step by step *)

Lemma uuid4_str_run (g : Uuid.entropy) :
  Aggregator.uuid4_str g
  = (Ok (Uuid.str (Spec.uuid_of_draw (Uuid.tape g) (Uuid.drawn g))), Spec.advance g 1).
Proof.
  unfold Aggregator.uuid4_str, Uuid.uuid4_str, Uuid.os_urandom16, Spec.advance,
    Spec.uuid_of_draw.
  now rewrite Nat.add_1_r.
Qed.

Lemma _normalize_record_run (r : dict) (g : Uuid.entropy) :
  Aggregator._normalize_record r g
  = match Spec.normalized r (Uuid.str (Spec.uuid_of_draw (Uuid.tape g) (Uuid.drawn g))) with
    | Ok c => (Ok c, Spec.advance g 1)
    | Raise e => (Raise e, g)
    end.
Proof.
  unfold Aggregator._normalize_record, Spec.normalized, Aggregator.bind,
    Aggregator.lift, Aggregator.ret.
  destruct (Aggregator._safe_float (PyVal.get r "amount" (PInt 0))); cbv beta iota;
    [|reflexivity].
  destruct (Aggregator._safe_float (PyVal.get r "tax" (PInt 0))); cbv beta iota;
    [|reflexivity].
  now rewrite uuid4_str_run.
Qed.

Lemma mapM_cons_run {A B : Type} (f : A -> Aggregator.M B) (a : A) (l : list A)
    (g : Uuid.entropy) :
  Aggregator.mapM f (a :: l) g
  = match f a g with
    | (Ok b, g1) =>
        match Aggregator.mapM f l g1 with
        | (Ok bs, g2) => (Ok (b :: bs), g2)
        | (Raise e, g2) => (Raise e, g2)
        end
    | (Raise e, g1) => (Raise e, g1)
    end.
Proof.
  simpl. unfold Aggregator.bind, Aggregator.ret.
  destruct (f a g) as [[b|e] g1]; [|reflexivity].
  destruct (Aggregator.mapM f l g1) as [[bs|e] g2]; reflexivity.
Qed.

Lemma advance_advance (g : Uuid.entropy) (n m : nat) :
  Spec.advance (Spec.advance g n) m = Spec.advance g (n + m).
Proof. unfold Spec.advance; simpl. now rewrite Nat.add_assoc. Qed.

(** The records that the list comprehension of [merge_data] builds. *)
Lemma mapM_normalize_fst (l : list dict) (g : Uuid.entropy) :
  fst (Aggregator.mapM Aggregator._normalize_record l g)
  = Spec.normalized_batch (Uuid.tape g) (Uuid.drawn g) l.
Proof.
  revert g. induction l as [|r l IH]; intros g; [reflexivity|].
  rewrite mapM_cons_run, _normalize_record_run. simpl.
  destruct (Spec.normalized r _) as [c|e]; simpl; [|reflexivity].
  specialize (IH (Spec.advance g 1)). simpl in IH.
  rewrite Nat.add_1_r in IH. rewrite <- IH.
  destruct (Aggregator.mapM _ l _) as [[bs|e] g2]; reflexivity.
Qed.

(** One read of entropy per record. *)
Lemma mapM_normalize_snd (l : list dict) (g g' : Uuid.entropy) (bs : list dict) :
  Aggregator.mapM Aggregator._normalize_record l g = (Ok bs, g') ->
  g' = Spec.advance g (List.length l).
Proof.
  revert g g' bs. induction l as [|r l IH]; intros g g' bs.
  - simpl. unfold Aggregator.ret. intros H. injection H as _ <-.
    unfold Spec.advance. destruct g; simpl. now rewrite Nat.add_0_r.
  - rewrite mapM_cons_run, _normalize_record_run.
    destruct (Spec.normalized r _) as [c|e]; [|discriminate].
    destruct (Aggregator.mapM _ l _) as [[cs|e] g2] eqn:E; [|discriminate].
    intros H. injection H as _ <-.
    apply IH in E. rewrite E, advance_advance. reflexivity.
Qed.

Lemma normalized_inv (r : dict) (rid : string) (c : dict) :
  Spec.normalized r rid = Ok c ->
  exists amount tax,
    Aggregator._safe_float (PyVal.get r "amount" (PInt 0)) = Ok amount /\
    Aggregator._safe_float (PyVal.get r "tax" (PInt 0)) = Ok tax /\
    c = Spec.canonical
          (Spec.cleaned (PyVal.get r "date" (PStr EmptyString)))
          (Spec.cleaned (PyVal.get r "vendor" (PStr EmptyString)))
          amount tax
          (PyVal.str (PyVal.get r "source" (PStr EmptyString)))
          rid.
Proof.
  unfold Spec.normalized.
  destruct (Aggregator._safe_float (PyVal.get r "amount" (PInt 0))) as [a|]; [|discriminate].
  destruct (Aggregator._safe_float (PyVal.get r "tax" (PInt 0))) as [t|]; [|discriminate].
  simpl. intros H. injection H as <-. now exists a, t.
Qed.

Lemma normalized_raise (r : dict) (rid : string) (e : exn) :
  Spec.normalized r rid = Raise e -> e = OverflowError /\ Spec.overflows r = true.
Proof.
  unfold Spec.normalized, Spec.overflows.
  destruct (Aggregator._safe_float (PyVal.get r "amount" (PInt 0))) as [a|e1] eqn:Ea; simpl.
  - destruct (Aggregator._safe_float (PyVal.get r "tax" (PInt 0))) as [t|e2] eqn:Et; simpl.
    + discriminate.
    + intros H. injection H as <-. split; [|reflexivity].
      now apply _safe_float_raise in Et.
  - intros H. injection H as <-. split; [|reflexivity].
    now apply _safe_float_raise in Ea.
Qed.

Lemma normalized_ok (r : dict) (rid : string) (c : dict) :
  Spec.normalized r rid = Ok c -> Spec.overflows r = false.
Proof.
  intros H. apply normalized_inv in H as (a & t & Ha & Ht & _).
  unfold Spec.overflows. now rewrite Ha, Ht.
Qed.

Lemma normalized_canonical (r : dict) (rid : string) (c : dict) :
  Spec.normalized r rid = Ok c -> Spec.CanonicalRecord c.
Proof.
  intros H. apply normalized_inv in H as (a & t & _ & _ & ->).
  unfold Spec.CanonicalRecord. eauto 10.
Qed.

Lemma normalized_batch_cons (tape : nat -> Z) (n : nat) (r : dict) (l : list dict) :
  Spec.normalized_batch tape n (r :: l)
  = match Spec.normalized r (Uuid.str (Spec.uuid_of_draw tape n)) with
    | Ok c =>
        match Spec.normalized_batch tape (S n) l with
        | Ok cs => Ok (c :: cs)
        | Raise e => Raise e
        end
    | Raise e => Raise e
    end.
Proof.
  simpl. destruct (Spec.normalized r _); simpl; [|reflexivity].
  destruct (Spec.normalized_batch tape (S n) l); reflexivity.
Qed.

(** Every step of the three batch lemmas opens a [cons] the same way. *)
Ltac batch_step r l IH n :=
  rewrite normalized_batch_cons;
  let c := fresh "c" in
  let cs := fresh "cs" in
  let Ec := fresh "Ec" in
  let Ecs := fresh "Ecs" in
  destruct (Spec.normalized r _) as [c|?] eqn:Ec;
  [destruct (Spec.normalized_batch _ (S n) l) as [cs|?] eqn:Ecs|].

Lemma normalized_batch_Forall2 (tape : nat -> Z) (l : list dict) :
  forall n cs, Spec.normalized_batch tape n l = Ok cs -> Forall2 Spec.normalizes l cs.
Proof.
  induction l as [|r l IH]; intros n cs.
  - simpl. intros H. injection H as <-. constructor.
  - batch_step r l IH n; try discriminate.
    intros H. injection H as <-. constructor; [eexists; exact Ec|eauto].
Qed.

Lemma normalized_batch_raise (tape : nat -> Z) (l : list dict) :
  forall n e, Spec.normalized_batch tape n l = Raise e ->
              e = OverflowError /\ existsb Spec.overflows l = true.
Proof.
  induction l as [|r l IH]; intros n e.
  - discriminate.
  - batch_step r l IH n; try discriminate; intros H; injection H as <-; simpl.
    + apply IH in Ecs as [-> ->]. split; [reflexivity|apply orb_true_r].
    + apply normalized_raise in Ec as [-> ->]. now split.
Qed.

Lemma normalized_batch_ok (tape : nat -> Z) (l : list dict) :
  forall n cs, Spec.normalized_batch tape n l = Ok cs ->
               existsb Spec.overflows l = false.
Proof.
  induction l as [|r l IH]; intros n cs.
  - reflexivity.
  - batch_step r l IH n; try discriminate.
    intros _. simpl. apply normalized_ok in Ec. apply IH in Ecs.
    now rewrite Ec, Ecs.
Qed.

Lemma normalized_batch_ids (tape : nat -> Z) (l : list dict) :
  forall n cs, Spec.normalized_batch tape n l = Ok cs ->
    map Spec.record_id cs
    = map (fun k => Some (PStr (Uuid.str (Spec.uuid_of_draw tape k))))
        (seq n (List.length l)).
Proof.
  induction l as [|r l IH]; intros n cs.
  - simpl. intros H. now injection H as <-.
  - batch_step r l IH n; try discriminate.
    intros H. injection H as <-. simpl. f_equal; [|eauto].
    now apply normalized_inv in Ec as (a & t & _ & _ & ->).
Qed.

Lemma Forall2_normalizes_canonical (l cs : list dict) :
  Forall2 Spec.normalizes l cs -> Forall Spec.CanonicalRecord cs.
Proof.
  induction 1 as [|r c l cs [rid H] _ IH]; constructor; [|assumption].
  eapply normalized_canonical; eassumption.
Qed.

(** ** Totals *)

Lemma sum_floats_acc_ok (xs : list PyFloat.float) :
  forall a, a = PInt 0 \/ (exists f, a = PFloat f) ->
    exists f,
      fold_left (fun acc x => rbind acc (fun a => Aggregator.sum_step a x)) xs (Ok a)
      = Ok f.
Proof.
  induction xs as [|x xs IH]; intros a Ha; simpl.
  - now exists a.
  - destruct Ha as [->|[f ->]]; simpl; apply IH; right; eauto.
Qed.

(** [sum] never raises on floats. *)
Lemma sum_floats_ok (xs : list PyFloat.float) :
  exists v, Aggregator.sum_floats xs = Ok v.
Proof. apply sum_floats_acc_ok. now left. Qed.

Lemma sum_floats_from (xs : list PyFloat.float) :
  forall a,
    fold_left (fun acc x => rbind acc (fun a => Aggregator.sum_step a x)) xs
      (Ok (PFloat a))
    = Ok (PFloat (Spec.float_sum a xs)).
Proof.
  induction xs as [|x xs IH]; intros a; [reflexivity|].
  cbn [fold_left Spec.float_sum]. apply IH.
Qed.

(** [sum] adds the floats in order, from the integer 0. *)
Lemma sum_floats_total (xs : list PyFloat.float) :
  Aggregator.sum_floats xs = Ok (Spec.total xs).
Proof.
  destruct xs as [|x xs]; [reflexivity|].
  unfold Aggregator.sum_floats, Spec.total. cbn [fold_left Spec.float_sum].
  apply sum_floats_from.
Qed.

Lemma sum_field_acc (key : string) (cs : list dict) :
  Forall (fun c => Aggregator._safe_float (PyVal.get c key (PInt 0))
                   = Ok (Spec.float_field key c)) cs ->
  forall acc,
    fold_left
      (fun acc r =>
         rbind acc (fun a =>
         rbind (Aggregator._safe_float (PyVal.get r key (PInt 0)))
           (fun x => Aggregator.sum_step a x))) cs acc
    = fold_left (fun acc x => rbind acc (fun a => Aggregator.sum_step a x))
        (map (Spec.float_field key) cs) acc.
Proof.
  induction 1 as [|c cs Hc _ IH]; intros acc; simpl; [reflexivity|].
  rewrite Hc. simpl. apply IH.
Qed.

(** On canonical records the totals are the sums of the stored floats. *)
Lemma sum_field_canonical (key : string) (cs : list dict) :
  key = "amount" \/ key = "tax" ->
  Forall Spec.CanonicalRecord cs ->
  Aggregator.sum_field key cs = Aggregator.sum_floats (map (Spec.float_field key) cs).
Proof.
  intros Hk Hcs. apply sum_field_acc.
  eapply Forall_impl; [|exact Hcs].
  intros c (d & v & a & t & s & i & ->).
  destruct Hk as [-> | ->]; reflexivity.
Qed.

(** [merge_data] is the list comprehension: the total computed for the debug
    line cannot raise. *)
Lemma merge_data_run (items : list pyval) (g : Uuid.entropy) :
  Aggregator.merge_data items g
  = Aggregator.mapM Aggregator._normalize_record (Spec.flatten items) g.
Proof.
  unfold Aggregator.merge_data, Aggregator.bind, Aggregator.lift, Aggregator.ret.
  rewrite _flatten_records_spec.
  pose proof (mapM_normalize_fst (Spec.flatten items) g) as Hfst.
  destruct (Aggregator.mapM _ _ g) as [[cs|e] g']; [|reflexivity].
  simpl in Hfst. symmetry in Hfst.
  apply normalized_batch_Forall2, Forall2_normalizes_canonical in Hfst.
  rewrite (sum_field_canonical "amount" cs (or_introl eq_refl) Hfst).
  destruct (sum_floats_ok (map (Spec.float_field "amount") cs)) as [v ->].
  reflexivity.
Qed.

(** ** The batch as a whole *)

Lemma merge_data_fst (items : list pyval) (g : Uuid.entropy) :
  fst (Aggregator.merge_data items g)
  = Spec.normalized_batch (Uuid.tape g) (Uuid.drawn g) (Spec.flatten items).
Proof. now rewrite merge_data_run, mapM_normalize_fst. Qed.

Lemma merge_data_snd (items : list pyval) (g g' : Uuid.entropy) (recs : list dict) :
  Aggregator.merge_data items g = (Ok recs, g') ->
  g' = Spec.advance g (List.length recs).
Proof.
  intros H. pose proof (merge_data_fst items g) as Hf. rewrite H in Hf. simpl in Hf.
  symmetry in Hf. apply normalized_batch_Forall2, Forall2_length in Hf.
  rewrite merge_data_run in H. apply mapM_normalize_snd in H. now rewrite H, Hf.
Qed.

(** Running [merge_data] from the records it is known to build. *)
Lemma merge_data_eval (items : list pyval) (g : Uuid.entropy) (cs : list dict) :
  Spec.normalized_batch (Uuid.tape g) (Uuid.drawn g) (Spec.flatten items) = Ok cs ->
  Aggregator.merge_data items g = (Ok cs, Spec.advance g (List.length cs)).
Proof.
  intros H. rewrite <- merge_data_fst in H.
  destruct (Aggregator.merge_data items g) as [r g'] eqn:E. simpl in H. subst r.
  now rewrite (merge_data_snd _ _ _ _ E).
Qed.

Lemma merge_data_canonical (items : list pyval) (g g' : Uuid.entropy) (recs : list dict) :
  Aggregator.merge_data items g = (Ok recs, g') -> Forall Spec.CanonicalRecord recs.
Proof.
  intros H. pose proof (merge_data_fst items g) as Hf. rewrite H in Hf. simpl in Hf.
  symmetry in Hf.
  now apply normalized_batch_Forall2, Forall2_normalizes_canonical in Hf.
Qed.

(** C2.  For every input list, the list that [merge_data] returns has one
    record per mapping item and one per mapping element of a sequence item,
    and none for any other item.  [merge_data] returns unless some
    flattened record holds an integer [amount] or [tax] beyond the float
    range, in which case it raises [OverflowError]. *)
Theorem merge_data_length (items : list pyval) (g : Uuid.entropy) :
  match fst (Aggregator.merge_data items g) with
  | Ok recs => List.length recs = Spec.expected_length items
  | Raise e => e = OverflowError /\ existsb Spec.overflows (Spec.flatten items) = true
  end.
Proof.
  rewrite merge_data_fst.
  destruct (Spec.normalized_batch _ _ _) as [recs|e] eqn:E.
  - apply normalized_batch_Forall2, Forall2_length in E.
    now rewrite <- E, flatten_length.
  - now apply normalized_batch_raise in E.
Qed.

(** C6.  The records come out in insertion order: the returned list is,
    position by position, the normalization of the flattened input, in
    which the contribution of every item precedes that of the next item and
    the mapping elements of a sequence keep their order.  The mixed-shape
    input with dates x, y and z yields exactly three records with these
    dates in this order. *)
Theorem merge_data_order (items : list pyval) (g : Uuid.entropy) :
  match fst (Aggregator.merge_data items g) with
  | Ok recs => Forall2 Spec.normalizes (flat_map Spec.contribution items) recs
  | Raise e => e = OverflowError /\ existsb Spec.overflows (Spec.flatten items) = true
  end
  /\ exists r1 r2 r3 g',
       Aggregator.merge_data
         [PDict [("date", PStr "x")];
          PList [PDict [("date", PStr "y")]; PDict [("date", PStr "z")]]] g
       = (Ok [r1; r2; r3], g')
       /\ PyVal.lookup r1 "date" = Some (PStr "x")
       /\ PyVal.lookup r2 "date" = Some (PStr "y")
       /\ PyVal.lookup r3 "date" = Some (PStr "z").
Proof.
  split.
  - rewrite merge_data_fst.
    destruct (Spec.normalized_batch _ _ _) as [recs|e] eqn:E.
    + now apply normalized_batch_Forall2 in E.
    + now apply normalized_batch_raise in E.
  - do 4 eexists. split; [apply merge_data_eval; reflexivity|].
    repeat split.
Qed.

(** C7.  [merge_data_detailed] returns the very records that [merge_data]
    returns for the same input and entropy, leaves the entropy as
    [merge_data] leaves it, and adds the totals and the number of input
    items.  Each total is the sum of the [amount], respectively [tax],
    floats of the returned records, added in order from 0.0 (the integer 0
    when no record is returned).  When [merge_data] raises, so does
    [merge_data_detailed].  Two documents holding three records with
    amounts 5000, 1200 and 3500 and taxes 500, 120 and 350 give the totals
    9700.0 and 970.0 and the count 2. *)
Theorem merge_data_detailed_spec (items : list pyval) (g : Uuid.entropy) :
  match Aggregator.merge_data items g with
  | (Ok recs, g') =>
      Aggregator.merge_data_detailed items g
      = (Ok {| Aggregator.records := recs;
               Aggregator.total_amount := Spec.total (map (Spec.float_field "amount") recs);
               Aggregator.total_tax := Spec.total (map (Spec.float_field "tax") recs);
               Aggregator.document_count := List.length items |}, g')
      /\ Forall Spec.CanonicalRecord recs
  | (Raise e, g') => Aggregator.merge_data_detailed items g = (Raise e, g')
  end
  /\ exists recs g',
       Aggregator.merge_data_detailed sample_documents entropy_count
       = (Ok {| Aggregator.records := recs;
                Aggregator.total_amount := PFloat (PyFloat.round_Z 9700);
                Aggregator.total_tax := PFloat (PyFloat.round_Z 970);
                Aggregator.document_count := 2 |}, g')
       /\ List.length recs = 3.
Proof.
  split.
  - unfold Aggregator.merge_data_detailed, Aggregator.bind, Aggregator.lift, Aggregator.ret.
    destruct (Aggregator.merge_data items g) as [[recs|e] g'] eqn:E; [|reflexivity].
    pose proof (merge_data_canonical _ _ _ _ E) as Hc.
    rewrite (sum_field_canonical "amount" recs (or_introl eq_refl) Hc).
    rewrite (sum_field_canonical "tax" recs (or_intror eq_refl) Hc).
    rewrite !sum_floats_total. split; [reflexivity|exact Hc].
  - do 2 eexists. split; [vm_compute; reflexivity|reflexivity].
Qed.

(** ** Placeholders *)

Lemma lstrip_blank (s : string) : Spec.is_blank s = true -> PyStr.lstrip s = EmptyString.
Proof.
  induction s as [|c s IH]; simpl; [reflexivity|].
  intros H. apply andb_true_iff in H as [-> H]. auto.
Qed.

Lemma strip_blank (s : string) : Spec.is_blank s = true -> PyStr.strip s = EmptyString.
Proof. intros H. unfold PyStr.strip. now rewrite lstrip_blank. Qed.

(** What the specification calls a placeholder, the code treats as one. *)
Lemma placeholder_is_placeholder (v : pyval) :
  Spec.placeholder v = true -> Aggregator.is_placeholder v = true.
Proof.
  destruct v as [| | | |s| |]; simpl; try discriminate; [reflexivity|].
  unfold Aggregator.is_placeholder. simpl.
  intros H. apply orb_true_iff in H as [H|H]; [apply orb_true_iff in H as [H|H]|].
  - now rewrite strip_blank.
  - rewrite H. apply orb_true_r.
  - rewrite H. rewrite !orb_true_r. reflexivity.
Qed.

Lemma cleaned_placeholder (v : pyval) :
  Spec.placeholder v = true -> Spec.cleaned v = EmptyString.
Proof.
  intros H. unfold Spec.cleaned. now rewrite placeholder_is_placeholder.
Qed.

Lemma get_lookup (r : dict) (key : string) (v default : pyval) :
  PyVal.lookup r key = Some v -> PyVal.get r key default = v.
Proof. unfold PyVal.get. now intros ->. Qed.

(** The instances that the specification names. *)
Lemma placeholder_instances :
  Forall (fun v => Spec.placeholder v = true)
    [PStr "Unknown"; PStr "unknown"; PStr "N/A"; PStr "n/a"; PStr EmptyString; PNone;
     PStr "   "; PStr "  UNKNOWN "]
  /\ forall s, Spec.is_blank s = true -> Spec.placeholder (PStr s) = true.
Proof.
  split.
  - repeat constructor.
  - intros s H. simpl. now rewrite H.
Qed.

(** C3.  A [date] or [vendor] value that is null, blank, "unknown" or "n/a"
    (after trimming, whatever the case) becomes the empty string in the
    canonical record, both in [_normalize_record] and through
    [merge_data]. *)
Theorem placeholder_collapse (r : dict) (g : Uuid.entropy) (key : string) (v : pyval) :
  key = "date" \/ key = "vendor" ->
  PyVal.lookup r key = Some v ->
  Spec.placeholder v = true ->
  match fst (Aggregator._normalize_record r g) with
  | Ok c => PyVal.lookup c key = Some (PStr EmptyString)
  | Raise e => e = OverflowError /\ Spec.overflows r = true
  end
  /\ exists c g',
       Aggregator.merge_data [PDict [(key, v)]] g = (Ok [c], g')
       /\ PyVal.lookup c key = Some (PStr EmptyString).
Proof.
  intros Hkey Hv Hp. split.
  - rewrite _normalize_record_run.
    destruct (Spec.normalized r _) as [c|e] eqn:E; simpl.
    + apply normalized_inv in E as (a & t & _ & _ & ->).
      destruct Hkey as [-> | ->]; simpl;
        now rewrite (get_lookup _ _ _ _ Hv), cleaned_placeholder.
    + now apply normalized_raise in E.
  - destruct Hkey as [-> | ->];
      (do 2 eexists; split;
       [apply merge_data_eval; reflexivity|simpl; now rewrite cleaned_placeholder]).
Qed.

Lemma placeholder_collapse_witness :
  match fst (Aggregator._normalize_record
               [("date", PStr " Unknown "); ("vendor", PStr "ABC Ltd")] entropy_count) with
  | Ok c => PyVal.lookup c "date" = Some (PStr EmptyString)
  | Raise e => e = OverflowError
               /\ Spec.overflows [("date", PStr " Unknown "); ("vendor", PStr "ABC Ltd")] = true
  end.
Proof.
  apply (placeholder_collapse
           [("date", PStr " Unknown "); ("vendor", PStr "ABC Ltd")] entropy_count
           "date" (PStr " Unknown ")).
  - left; reflexivity.
  - reflexivity.
  - reflexivity.
Defined.

(** ** Idempotence *)

Lemma is_placeholder_str (s : string) :
  Aggregator.is_placeholder (PStr s)
  = PyStr.str_in (PyStr.lower (PyStr.strip s)) [EmptyString; "unknown"; "n/a"].
Proof. reflexivity. Qed.

Lemma cleaned_idempotent (v : pyval) :
  Spec.cleaned (PStr (Spec.cleaned v)) = Spec.cleaned v.
Proof.
  unfold Spec.cleaned.
  destruct (Aggregator.is_placeholder v) eqn:E; [reflexivity|].
  unfold Aggregator.is_placeholder in E. apply orb_false_iff in E as [_ E].
  change (PyVal.str (PStr (PyVal.str v))) with (PyVal.str v).
  rewrite is_placeholder_str.
  change (PyVal.str (PStr (PyVal.str v))) with (PyVal.str v).
  now rewrite E.
Qed.

Lemma normalized_of_canonical (d v : string) (a t : PyFloat.float) (s i rid : string) :
  Spec.normalized (Spec.canonical d v a t s i) rid
  = Ok (Spec.canonical (Spec.cleaned (PStr d)) (Spec.cleaned (PStr v)) a t s rid).
Proof. reflexivity. Qed.

(** C8.  Normalizing a record that a previous normalization produced
    succeeds and gives back the same record except for [record_id]: the
    [date], [vendor], [amount], [tax] and [source] fields are unchanged. *)
Theorem normalize_idempotent (r c : dict) (g g1 g2 : Uuid.entropy) :
  Aggregator._normalize_record r g = (Ok c, g1) ->
  exists rid,
    Aggregator._normalize_record c g2
    = (Ok (PyVal.setitem c "record_id" (PStr rid)), Spec.advance g2 1)
    /\ Forall (fun key => PyVal.lookup (PyVal.setitem c "record_id" (PStr rid)) key
                          = PyVal.lookup c key)
         ["date"; "vendor"; "amount"; "tax"; "source"].
Proof.
  rewrite _normalize_record_run.
  destruct (Spec.normalized r _) as [c0|] eqn:E; [|discriminate].
  intros H. injection H as -> _.
  apply normalized_inv in E as (a & t & _ & _ & ->).
  exists (Uuid.str (Spec.uuid_of_draw (Uuid.tape g2) (Uuid.drawn g2))).
  split.
  - rewrite _normalize_record_run, normalized_of_canonical, !cleaned_idempotent.
    reflexivity.
  - repeat constructor.
Qed.

Lemma normalize_idempotent_witness :
  exists rid,
    Aggregator._normalize_record
      (sample_record (Uuid.str (Spec.uuid_of_draw (fun n => Z.of_nat n) 0))) entropy_zero
    = (Ok (PyVal.setitem
             (sample_record (Uuid.str (Spec.uuid_of_draw (fun n => Z.of_nat n) 0)))
             "record_id" (PStr rid)),
       Spec.advance entropy_zero 1)
    /\ Forall (fun key =>
                 PyVal.lookup
                   (PyVal.setitem
                      (sample_record (Uuid.str (Spec.uuid_of_draw (fun n => Z.of_nat n) 0)))
                      "record_id" (PStr rid)) key
                 = PyVal.lookup
                     (sample_record (Uuid.str (Spec.uuid_of_draw (fun n => Z.of_nat n) 0)))
                     key)
         ["date"; "vendor"; "amount"; "tax"; "source"].
Proof.
  apply (normalize_idempotent sample_extracted _ entropy_count
           (Spec.advance entropy_count 1) entropy_zero).
  vm_compute. reflexivity.
Defined.

(** ** Extraction *)

Lemma split_dot_hd (s : string) :
  hd EmptyString (PyStr.split "." s) = Spec.stem s.
Proof.
  induction s as [|c s IH]; simpl; [reflexivity|].
  destruct (Ascii.eqb c "."); [reflexivity|].
  destruct (PyStr.split "." s); simpl in *; now rewrite <- IH.
Qed.

(** [fallback_extract] builds the specification's fallback record. *)
Lemma fallback_extract_spec (content filename : string) :
  Extractor.fallback_extract content filename = Spec.fallback_record filename.
Proof.
  unfold Extractor.fallback_extract, Spec.fallback_record.
  destruct filename as [|c s]; [reflexivity|].
  cbv beta iota delta [PyVal.str_truthy]. now rewrite split_dot_hd.
Qed.

Lemma ai_extract_returns (requests_post : string -> dict -> result Extractor.Response)
    (json_loads : string -> result dict) (content : string) :
  exists r, Extractor.ai_extract requests_post json_loads content = Ok r.
Proof.
  unfold Extractor.ai_extract, try_except, is_Exception.
  destruct (Extractor.ai_extract_try _ _ _); eauto.
Qed.

Lemma ai_extract_fails (requests_post : string -> dict -> result Extractor.Response)
    (json_loads : string -> result dict) (content : string) :
  Spec.extraction_fails requests_post json_loads content ->
  Extractor.ai_extract requests_post json_loads content = Ok None.
Proof.
  unfold Spec.extraction_fails, Extractor.ai_extract, Extractor.ai_extract_try.
  destruct (requests_post _ _) as [response|]; simpl; [|reflexivity].
  destruct (Extractor.json response) as [data|]; simpl; [|reflexivity].
  destruct data as [| | | | | |body]; simpl; try reflexivity.
  destruct (PyVal.get body "response" (PStr EmptyString)); simpl; try reflexivity.
  destruct (Extractor.re_search_braces _); simpl; [|reflexivity].
  destruct (json_loads _); simpl; [contradiction|reflexivity].
Qed.

Lemma ai_extract_answers (requests_post : string -> dict -> result Extractor.Response)
    (json_loads : string -> result dict) (content : string) (d : dict) :
  Spec.model_answers requests_post json_loads content d ->
  Extractor.ai_extract requests_post json_loads content = Ok (Some d).
Proof.
  intros (response & body & text & group & Hp & Hj & Hg & Hs & Hl).
  unfold Extractor.ai_extract, Extractor.ai_extract_try.
  rewrite Hp. simpl. rewrite Hj. simpl. rewrite Hg. simpl. rewrite Hs, Hl.
  reflexivity.
Qed.

(** C1.  [extract_data] never raises, and whenever extraction fails it
    returns exactly the fallback record: empty [date], the document name up
    to its first dot as [vendor], 0 for [amount] and [tax], and the document
    name as [source]. *)
Theorem extract_data_fallback
    (requests_post : string -> dict -> result Extractor.Response)
    (json_loads : string -> result dict) (filename content : string) :
  (exists d, Extractor.extract_data requests_post json_loads filename content = Ok d)
  /\ (Spec.extraction_fails requests_post json_loads content ->
      Extractor.extract_data requests_post json_loads filename content
      = Ok [("date", PStr EmptyString);
            ("vendor", PStr (Spec.stem filename));
            ("amount", PInt 0);
            ("tax", PInt 0);
            ("source", PStr filename)]).
Proof.
  split.
  - unfold Extractor.extract_data.
    destruct (ai_extract_returns requests_post json_loads content) as [r ->]. simpl.
    destruct r as [d|]; [destruct (PyVal.dict_truthy d)|]; eauto.
  - intros H. unfold Extractor.extract_data.
    rewrite (ai_extract_fails _ _ _ H). simpl.
    now rewrite fallback_extract_spec.
Qed.

Lemma extract_data_fallback_witness :
  Extractor.extract_data service_down loads_nothing "invoice_001.v2.txt" "Total: 5000"
  = Ok [("date", PStr EmptyString);
        ("vendor", PStr "invoice_001");
        ("amount", PInt 0);
        ("tax", PInt 0);
        ("source", PStr "invoice_001.v2.txt")].
Proof.
  apply (proj2 (extract_data_fallback service_down loads_nothing
                  "invoice_001.v2.txt" "Total: 5000")).
  exact I.
Defined.

Lemma lookup_setitem (d : dict) (k : string) (v : pyval) :
  PyVal.lookup (PyVal.setitem d k v) k = Some v.
Proof.
  induction d as [|[k' v'] d IH]; simpl.
  - now rewrite String.eqb_refl.
  - destruct (String.eqb k k') eqn:E; simpl.
    + now rewrite String.eqb_refl.
    + now rewrite E.
Qed.

(** C10.  When the service answers and the JSON object found in its text
    parses to the mapping [d], [extract_data] returns [d] with [source]
    overwritten only if [d] is not empty; for the empty object it returns
    the fallback record derived from the document name. *)
Theorem extract_data_truthiness
    (requests_post : string -> dict -> result Extractor.Response)
    (json_loads : string -> result dict) (filename content : string) (d : dict) :
  Spec.model_answers requests_post json_loads content d ->
  (d = [] ->
   Extractor.extract_data requests_post json_loads filename content
   = Ok (Spec.fallback_record filename))
  /\ (d <> [] ->
      Extractor.extract_data requests_post json_loads filename content
      = Ok (PyVal.setitem d "source" (PStr filename))
      /\ PyVal.lookup (PyVal.setitem d "source" (PStr filename)) "source"
         = Some (PStr filename)).
Proof.
  intros H. apply ai_extract_answers in H.
  unfold Extractor.extract_data. rewrite H. simpl. split.
  - intros ->. simpl. now rewrite fallback_extract_spec.
  - intros Hd. destruct d as [|kv d]; [contradiction|]. split; [reflexivity|].
    apply lookup_setitem.
Qed.

Lemma extract_data_truthiness_witness :
  Extractor.extract_data service_empty_object loads_empty_object "receipt_002.csv" "paid"
  = Ok (Spec.fallback_record "receipt_002.csv").
Proof.
  refine (proj1 (extract_data_truthiness service_empty_object loads_empty_object
                   "receipt_002.csv" "paid" [] _) eq_refl).
  exists {| Extractor.json := Ok (PDict [("response", PStr " {} ")]) |},
    [("response", PStr " {} ")], " {} ", "{}".
  repeat split.
Defined.

(** ** Numeric coercion at work *)

(** The three coercions that the specification lists: the text 12.5 is
    read as the float 12.5, and an unreadable text or a null become 0.0. *)
Lemma _safe_float_examples :
  Aggregator._safe_float (PStr "12.5") = Ok (PyFloat.of_decimal false 125 (-1))
  /\ PyFloat.repr (PyFloat.of_decimal false 125 (-1)) = "12.5"
  /\ Aggregator._safe_float (PStr "abc") = Ok PyFloat.zero
  /\ Aggregator._safe_float PNone = Ok PyFloat.zero
  /\ PyFloat.repr PyFloat.zero = "0.0".
Proof. repeat split; vm_compute; reflexivity. Qed.

(** Normalization returns a canonical record unless [amount] or [tax] is an
    integer beyond the float range. *)
Lemma _normalize_record_returns (r : dict) (g : Uuid.entropy) :
  Spec.overflows r = false ->
  exists c,
    Aggregator._normalize_record r g = (Ok c, Spec.advance g 1)
    /\ Spec.CanonicalRecord c.
Proof.
  intros H. rewrite _normalize_record_run.
  destruct (Spec.normalized r _) as [c|e] eqn:E.
  - exists c. split; [reflexivity|]. eapply normalized_canonical; eassumption.
  - apply normalized_raise in E as [_ E]. congruence.
Qed.

Lemma of_int_too_large : PyFloat.of_int (10 ^ 400) = Raise OverflowError.
Proof. vm_compute. reflexivity. Qed.

(** C4.  Normalization does fail on some mappings: an [amount] that is the
    integer 10^400 makes [_safe_float] raise [OverflowError], which neither
    [_normalize_record] nor [merge_data] catches. *)
Theorem _normalize_record_overflow (g : Uuid.entropy) :
  Aggregator._safe_float (PInt (10 ^ 400)) = Raise OverflowError
  /\ Aggregator._normalize_record [("amount", PInt (10 ^ 400))] g
     = (Raise OverflowError, g)
  /\ Aggregator.merge_data [PDict [("amount", PInt (10 ^ 400))]] g
     = (Raise OverflowError, g).
Proof.
  assert (Hf : Aggregator._safe_float (PInt (10 ^ 400)) = Raise OverflowError).
  { unfold Aggregator._safe_float. simpl PyVal.isinstance_int_or_float.
    cbv iota. unfold PyVal.float. exact of_int_too_large. }
  assert (Hn : forall rid,
             Spec.normalized [("amount", PInt (10 ^ 400))] rid = Raise OverflowError).
  { intros rid. unfold Spec.normalized.
    change (PyVal.get [("amount", PInt (10 ^ 400))] "amount" (PInt 0))
      with (PInt (10 ^ 400)).
    now rewrite Hf. }
  split; [exact Hf|]. split.
  - now rewrite _normalize_record_run, Hn.
  - rewrite merge_data_run.
    change (Spec.flatten [PDict [("amount", PInt (10 ^ 400))]])
      with [[("amount", PInt (10 ^ 400))]].
    now rewrite mapM_cons_run, _normalize_record_run, Hn.
Qed.

(** ** The CSV file *)

Lemma columns_step_first (c : dict) :
  Spec.CanonicalRecord c ->
  fold_left
    (fun cols k => if PyStr.str_in k cols then cols else (cols ++ [k])%list)
    (map fst c) []
  = Aggregator.CANONICAL_COLUMNS.
Proof. intros (d & v & a & t & s & i & ->). reflexivity. Qed.

Lemma columns_step_next (c : dict) :
  Spec.CanonicalRecord c ->
  fold_left
    (fun cols k => if PyStr.str_in k cols then cols else (cols ++ [k])%list)
    (map fst c) Aggregator.CANONICAL_COLUMNS
  = Aggregator.CANONICAL_COLUMNS.
Proof. intros (d & v & a & t & s & i & ->). reflexivity. Qed.

(** The columns of a non-empty table of canonical records are the canonical
    columns, in canonical order. *)
Lemma DataFrame_columns_canonical (recs : list dict) :
  recs <> [] -> Forall Spec.CanonicalRecord recs ->
  CsvConverter.DataFrame_columns recs = Aggregator.CANONICAL_COLUMNS.
Proof.
  intros Hne Hc. unfold CsvConverter.DataFrame_columns.
  destruct Hc as [|c recs Hc Hrest]; [contradiction|].
  cbn [fold_left]. rewrite (columns_step_first c Hc). clear Hne Hc.
  induction Hrest as [|c' recs Hc' _ IH]; [reflexivity|].
  cbn [fold_left]. now rewrite (columns_step_next c' Hc').
Qed.

Lemma header_row_canonical :
  CsvConverter.header_row Aggregator.CANONICAL_COLUMNS = Spec.canonical_header.
Proof. vm_compute. reflexivity. Qed.

Lemma data_row_canonical (d v : string) (a t : PyFloat.float) (s i : string) :
  CsvConverter.data_row Aggregator.CANONICAL_COLUMNS (Spec.canonical d v a t s i)
  = Spec.canonical_row d v a t s i.
Proof. reflexivity. Qed.

Lemma to_csv_canonical (recs : list dict) :
  recs <> [] -> Forall Spec.CanonicalRecord recs ->
  CsvConverter.to_csv recs
  = CsvConverter.lines
      (Spec.canonical_header
         :: map (CsvConverter.data_row Aggregator.CANONICAL_COLUMNS) recs).
Proof.
  intros Hne Hc. unfold CsvConverter.to_csv.
  now rewrite (DataFrame_columns_canonical recs Hne Hc), header_row_canonical.
Qed.


(** ** Identifiers *)

Lemma string_length_append (a b : string) :
  String.length (a ++ b) = String.length a + String.length b.
Proof. induction a as [|c a IH]; simpl; [reflexivity|now rewrite IH]. Qed.

Lemma hex_length (n : nat) (i : Z) : String.length (Uuid.hex n i) = n.
Proof.
  revert i. induction n as [|n IH]; intros i; simpl; [reflexivity|].
  rewrite string_length_append, IH. simpl. apply Nat.add_1_r.
Qed.

Lemma append_char_inj (a b : string) (c d : ascii) :
  a ++ PyStr.of_char c = b ++ PyStr.of_char d -> a = b /\ c = d.
Proof.
  revert b. induction a as [|x a IH]; intros [|y b]; simpl; intros H.
  - injection H as ->. now split.
  - injection H as _ H. destruct b; discriminate.
  - injection H as _ H. destruct a; discriminate.
  - injection H as -> H. apply IH in H as [-> ->]. now split.
Qed.

Lemma hex_digit_inj (n m : nat) :
  n < 16 -> m < 16 -> PyStr.hex_digit n = PyStr.hex_digit m -> n = m.
Proof.
  intros Hn Hm H. apply (f_equal nat_of_ascii) in H. unfold PyStr.hex_digit in H.
  destruct (n <? 10)%nat eqn:En; destruct (m <? 10)%nat eqn:Em;
    rewrite !nat_ascii_embedding in H by lia;
    try apply Nat.ltb_lt in En; try apply Nat.ltb_lt in Em;
    try apply Nat.ltb_ge in En; try apply Nat.ltb_ge in Em; lia.
Qed.

(** Numbers below [16^n] are told apart by their [n] hexadecimal digits. *)
Lemma hex_inj (n : nat) :
  forall a b : Z,
    (0 <= a < 16 ^ Z.of_nat n)%Z -> (0 <= b < 16 ^ Z.of_nat n)%Z ->
    Uuid.hex n a = Uuid.hex n b -> a = b.
Proof.
  induction n as [|n IH]; intros a b Ha Hb H.
  - simpl in Ha, Hb. lia.
  - simpl in H. apply append_char_inj in H as [Hhi Hlo].
    rewrite Nat2Z.inj_succ, Z.pow_succ_r in Ha, Hb by lia.
    assert (Hq : (a / 16 = b / 16)%Z).
    { apply IH; [| |exact Hhi]; split;
        try (apply Z.div_pos; lia); apply Z.div_lt_upper_bound; lia. }
    assert (Hr : (a mod 16 = b mod 16)%Z).
    { pose proof (Z.mod_pos_bound a 16 eq_refl). pose proof (Z.mod_pos_bound b 16 eq_refl).
      apply hex_digit_inj in Hlo; lia. }
    rewrite (Z.div_mod a 16), (Z.div_mod b 16) by lia. now rewrite Hq, Hr.
Qed.

(** Opens a string of known length into its characters. *)
Ltac explode s H :=
  repeat (destruct s as [|? s]; [discriminate H|simpl in H; injection H as H]);
  destruct s; [clear H|discriminate H].

Lemma dashed_inj (h k : string) :
  String.length h = 32 -> String.length k = 32 ->
  Uuid.dashed h = Uuid.dashed k -> h = k.
Proof.
  intros Hh Hk H. explode h Hh. explode k Hk.
  unfold Uuid.dashed in H. simpl in H. congruence.
Qed.

Lemma lt_pow2_bits (x n : Z) :
  (0 <= n)%Z -> (0 <= x)%Z ->
  (forall k, (n <= k)%Z -> Z.testbit x k = false) -> (x < 2 ^ n)%Z.
Proof.
  intros Hn Hx Hbits.
  destruct (Z.eq_dec x 0) as [->|Hne].
  - apply Z.pow_pos_nonneg; lia.
  - apply Z.log2_lt_pow2; [lia|].
    destruct (Z_lt_le_dec (Z.log2 x) n) as [Hlt|Hge]; [assumption|].
    specialize (Hbits (Z.log2 x) Hge). rewrite Z.bit_log2 in Hbits by lia. discriminate.
Qed.

Lemma bits_above_pow2 (x n k : Z) :
  (0 <= x < 2 ^ n)%Z -> (n <= k)%Z -> Z.testbit x k = false.
Proof.
  intros [Hx Hlt] Hk.
  destruct (Z.eq_dec x 0) as [->|Hne]; [apply Z.bits_0|].
  apply Z.bits_above_log2; [assumption|].
  destruct (Z_lt_le_dec n 0) as [Hn|Hn]; [rewrite Z.pow_neg_r in Hlt by assumption; lia|].
  apply Z.log2_lt_pow2 in Hlt; lia.
Qed.

(** Overwriting the version and variant bits keeps the value within 128
    bits. *)
Lemma set_version4_range (i : Z) :
  (0 <= i < 2 ^ 128)%Z -> (0 <= Uuid.set_version4 i < 2 ^ 128)%Z.
Proof.
  intros Hi. unfold Uuid.set_version4.
  assert (Hnn : (0 <= Z.lor
                        (Z.land
                           (Z.lor (Z.land i (Z.lnot (Z.shiftl 49152 48)))
                              (Z.shiftl 32768 48))
                           (Z.lnot (Z.shiftl 61440 64)))
                        (Z.shiftl 4 76))%Z).
  { apply Z.lor_nonneg. split; [|vm_compute; discriminate].
    apply Z.land_nonneg. left. apply Z.lor_nonneg. split; [|vm_compute; discriminate].
    apply Z.land_nonneg. left. lia. }
  split; [exact Hnn|].
  apply lt_pow2_bits; [discriminate|exact Hnn|].
  intros k Hk. rewrite Z.lor_spec, Z.land_spec, Z.lor_spec, Z.land_spec.
  rewrite (bits_above_pow2 i 128 k Hi Hk).
  rewrite (bits_above_pow2 (Z.shiftl 32768 48) 128 k)
    by first [exact Hk|split; [discriminate|reflexivity]].
  rewrite (bits_above_pow2 (Z.shiftl 4 76) 128 k)
    by first [exact Hk|split; [discriminate|reflexivity]].
  reflexivity.
Qed.

Lemma uuid_of_draw_range (tape : nat -> Z) (n : nat) :
  (0 <= Spec.uuid_of_draw tape n < 2 ^ 128)%Z.
Proof.
  apply set_version4_range. apply Z.mod_pos_bound. reflexivity.
Qed.

(** Identifiers with different integer values have different texts. *)
Lemma uuid_str_inj (a b : Z) :
  (0 <= a < 2 ^ 128)%Z -> (0 <= b < 2 ^ 128)%Z -> Uuid.str a = Uuid.str b -> a = b.
Proof.
  intros Ha Hb H. unfold Uuid.str in H.
  apply dashed_inj in H; try apply hex_length.
  apply (hex_inj 32); assumption.
Qed.

(** The identifiers of a returned batch: one read of entropy per record, in
    order. *)
Lemma merge_data_ids (items : list pyval) (g g' : Uuid.entropy) (recs : list dict) :
  Aggregator.merge_data items g = (Ok recs, g') ->
  map Spec.record_id recs
  = map (fun k => Some (PStr (Uuid.str (Spec.uuid_of_draw (Uuid.tape g) k))))
      (seq (Uuid.drawn g) (List.length recs))
  /\ g' = Spec.advance g (List.length recs).
Proof.
  intros H. split; [|exact (merge_data_snd _ _ _ _ H)].
  pose proof (merge_data_fst items g) as Hf. rewrite H in Hf. simpl in Hf.
  symmetry in Hf.
  rewrite (normalized_batch_ids _ _ _ _ Hf).
  apply normalized_batch_Forall2, Forall2_length in Hf. now rewrite Hf.
Qed.

Lemma some_pstr_inj (s t : string) : Some (PStr s) = Some (PStr t) -> s = t.
Proof. intros H. now injection H. Qed.

(** Each record takes one fresh read of entropy, never used again.  The
    identifiers of the records of a batch, and of two batches built one
    after the other, are pairwise distinct provided the reads of entropy
    made for these records differ pairwise in the 122 bits that [uuid4]
    keeps: that they do is a matter of the entropy source, of which the
    code decides nothing. *)
Theorem record_ids_distinct (items1 items2 : list pyval)
    (g g1 g1' g2 : Uuid.entropy) (recs1 recs2 : list dict) :
  Aggregator.merge_data items1 g = (Ok recs1, g1) ->
  Uuid.tape g1' = Uuid.tape g1 ->
  Uuid.drawn g1 <= Uuid.drawn g1' ->
  Aggregator.merge_data items2 g1' = (Ok recs2, g2) ->
  (forall i j,
      Uuid.drawn g <= i < Uuid.drawn g1 \/ Uuid.drawn g1' <= i < Uuid.drawn g2 ->
      Uuid.drawn g <= j < Uuid.drawn g1 \/ Uuid.drawn g1' <= j < Uuid.drawn g2 ->
      i <> j ->
      Spec.uuid_of_draw (Uuid.tape g) i <> Spec.uuid_of_draw (Uuid.tape g) j) ->
  NoDup (map Spec.record_id (recs1 ++ recs2))
  /\ NoDup (map Spec.record_id recs1)
  /\ NoDup (map Spec.record_id recs2)
  /\ Uuid.drawn g1 = Uuid.drawn g + List.length recs1
  /\ Uuid.drawn g2 = Uuid.drawn g1' + List.length recs2.
Proof.
  intros H1 Htape Hdrawn H2 Hfresh.
  apply merge_data_ids in H1 as [Hid1 ->].
  apply merge_data_ids in H2 as [Hid2 ->].
  unfold Spec.advance in Htape, Hdrawn, Hfresh, Hid2 |- *.
  cbn [Uuid.tape Uuid.drawn] in Htape, Hdrawn, Hfresh, Hid2 |- *.
  rewrite Htape in Hid2.
  assert (Hall : NoDup (map Spec.record_id (recs1 ++ recs2))).
  { rewrite map_app, Hid1, Hid2, <- map_app.
    apply NoDup_map_NoDup_ForallPairs.
    - intros a b Ha Hb Hab. apply some_pstr_inj in Hab.
      apply uuid_str_inj in Hab; try apply uuid_of_draw_range.
      apply in_app_or in Ha, Hb. rewrite !in_seq in Ha, Hb.
      destruct (Nat.eq_dec a b) as [Heq|Hne]; [exact Heq|].
      exfalso. apply (Hfresh a b); [lia|lia|exact Hne|exact Hab].
    - apply NoDup_app; try apply seq_NoDup.
      intros a Ha Hb. rewrite in_seq in Ha, Hb. lia. }
  split; [exact Hall|].
  rewrite map_app in Hall. repeat split.
  - eapply NoDup_app_remove_r; exact Hall.
  - eapply NoDup_app_remove_l; exact Hall.
Qed.

(** Nothing in the code itself keeps identifiers apart: were two reads of
    entropy to coincide, both records of the batch would get the same
    identifier. *)
Lemma record_ids_collide :
  exists recs g',
    Aggregator.merge_data [PDict []; PDict []] entropy_zero = (Ok recs, g')
    /\ ~ NoDup (map Spec.record_id recs).
Proof.
  do 2 eexists. split; [apply merge_data_eval; reflexivity|].
  intros H. inversion H as [|x l Hin _]; subst. apply Hin. left. reflexivity.
Qed.

Lemma record_ids_distinct_witness :
  NoDup (map Spec.record_id
           ([sample_record (Uuid.str (Spec.uuid_of_draw (fun n => Z.of_nat n) 0))]
              ++ [sample_record (Uuid.str (Spec.uuid_of_draw (fun n => Z.of_nat n) 1))]))
  /\ NoDup (map Spec.record_id
              [sample_record (Uuid.str (Spec.uuid_of_draw (fun n => Z.of_nat n) 0))])
  /\ NoDup (map Spec.record_id
              [sample_record (Uuid.str (Spec.uuid_of_draw (fun n => Z.of_nat n) 1))])
  /\ 1 = 0 + 1
  /\ 2 = 1 + 1.
Proof.
  apply (record_ids_distinct [PDict sample_extracted] [PList [PDict sample_extracted]]
           entropy_count (Spec.advance entropy_count 1) (Spec.advance entropy_count 1)
           (Spec.advance entropy_count 2)).
  - vm_compute. reflexivity.
  - reflexivity.
  - simpl. lia.
  - vm_compute. reflexivity.
  - intros i j Hi Hj Hij. simpl in Hi, Hj.
    assert (Hcases : (i = 0 /\ j = 1) \/ (i = 1 /\ j = 0)) by lia.
    destruct Hcases as [[-> ->]|[-> ->]]; vm_compute; discriminate.
Defined.

(** ** The text of an identifier *)

Lemma contains_char_app (c : ascii) (a b : string) :
  PyStr.contains_char c (a ++ b) = PyStr.contains_char c a || PyStr.contains_char c b.
Proof.
  induction a as [|x a IH]; simpl; [reflexivity|]. now rewrite IH, orb_assoc.
Qed.

Lemma hex_digit_in (k : nat) :
  k < 16 -> PyStr.contains_char (PyStr.hex_digit k) "0123456789abcdef" = true.
Proof.
  intros H. do 16 (destruct k as [|k]; [reflexivity|]). lia.
Qed.

Lemma hex_chars (c : ascii) (n : nat) :
  forall i, PyStr.contains_char c (Uuid.hex n i) = true ->
            PyStr.contains_char c "0123456789abcdef" = true.
Proof.
  induction n as [|n IH]; intros i; simpl; [discriminate|].
  rewrite contains_char_app. intros H. apply orb_true_iff in H as [H|H]; [eauto|].
  simpl in H. rewrite orb_false_r in H. apply Ascii.eqb_eq in H. subst c.
  apply hex_digit_in.
  pose proof (Z.mod_pos_bound i 16 eq_refl). lia.
Qed.

Lemma take_contains (c : ascii) (n : nat) :
  forall s, PyStr.contains_char c (Uuid.take n s) = true -> PyStr.contains_char c s = true.
Proof.
  induction n as [|n IH]; intros [|x s]; simpl; try discriminate.
  intros H. apply orb_true_iff in H as [H|H]; [now rewrite H|].
  rewrite (IH _ H). apply orb_true_r.
Qed.

Lemma drop_contains (c : ascii) (n : nat) :
  forall s, PyStr.contains_char c (Uuid.drop n s) = true -> PyStr.contains_char c s = true.
Proof.
  induction n as [|n IH]; intros [|x s]; simpl; try discriminate; try tauto.
  intros H. rewrite (IH _ H). apply orb_true_r.
Qed.

Lemma dashed_chars (c : ascii) (h : string) :
  PyStr.contains_char c (Uuid.dashed h) = true ->
  Ascii.eqb c "-" = true \/ PyStr.contains_char c h = true.
Proof.
  unfold Uuid.dashed. rewrite !contains_char_app. intros H.
  repeat (apply orb_true_iff in H as [H|H]);
    try (right; repeat (first [apply take_contains in H|apply drop_contains in H]);
         exact H);
    cbn [PyStr.contains_char] in H; first [left; exact H|discriminate H].
Qed.

(** An identifier is made of dashes and hexadecimal digits. *)
Lemma uuid_str_chars (c : ascii) (i : Z) :
  PyStr.contains_char c (Uuid.str i) = true ->
  PyStr.contains_char c "-0123456789abcdef" = true.
Proof.
  intros H. apply dashed_chars in H as [H|H].
  - change (Ascii.eqb c "-" || PyStr.contains_char c "0123456789abcdef" = true).
    now rewrite H.
  - apply hex_chars in H.
    change (Ascii.eqb c "-" || PyStr.contains_char c "0123456789abcdef" = true).
    rewrite H. apply orb_true_r.
Qed.

(** An identifier is written to the CSV file as it is. *)
Lemma uuid_field (i : Z) : CsvConverter.field (Uuid.str i) = Uuid.str i.
Proof.
  unfold CsvConverter.field.
  destruct (CsvConverter.needs_quotes (Uuid.str i)) eqn:E; [exfalso|reflexivity].
  unfold CsvConverter.needs_quotes in E.
  apply orb_true_iff in E as [E|E];
    [apply orb_true_iff in E as [E|E]; [apply orb_true_iff in E as [E|E]|]|];
    apply uuid_str_chars in E; vm_compute in E; discriminate.
Qed.

(** The end-to-end scenario of the specification: the one extraction gives
    one canonical record with the same values and a generated identifier,
    and the CSV file holds the header and the row of these values. *)
Lemma end_to_end_single_record (g : Uuid.entropy) (path : string)
    (fs : CsvConverter.files) :
  let rid := Uuid.str (Spec.uuid_of_draw (Uuid.tape g) (Uuid.drawn g)) in
  Aggregator.merge_data [PDict sample_extracted] g
  = (Ok [sample_record rid], Spec.advance g 1)
  /\ CsvConverter.create_csv [sample_record rid] path fs path
     = Some ("date,vendor,amount,tax,source,record_id" ++ Extractor.nl
             ++ "2024-01-15,ABC Ltd,5000.0,500.0,invoice_001.txt," ++ rid
             ++ Extractor.nl).
Proof.
  intros rid. split.
  - apply merge_data_eval. reflexivity.
  - unfold CsvConverter.create_csv, CsvConverter.write_file.
    rewrite String.eqb_refl, to_csv_canonical.
    + unfold sample_record. cbn [map CsvConverter.lines].
      rewrite data_row_canonical. unfold Spec.canonical_row.
      unfold rid at 1. rewrite uuid_field. fold rid.
      generalize rid. intros r. vm_compute. reflexivity.
    + discriminate.
    + repeat constructor. unfold Spec.CanonicalRecord, sample_record. eauto 10.
Qed.


(** * Further properties *)

#[local] Arguments Ascii.eqb : simpl never.

(** ** The search for a JSON object in the answer *)

Lemma from_first_lbrace_inv (s r : string) :
  Extractor.from_first_lbrace s = Some r ->
  exists pre, s = pre ++ "{" ++ r /\ PyStr.contains_char "{" pre = false.
Proof.
  revert r. induction s as [|c s IH]; simpl; intros r H; [discriminate|].
  destruct (Ascii.eqb c "{") eqn:E.
  - injection H as <-. apply Ascii.eqb_eq in E. subst c.
    exists EmptyString. now split.
  - apply IH in H as (pre & -> & Hpre).
    exists (String c pre). split; [reflexivity|].
    simpl. now rewrite Ascii.eqb_sym, E.
Qed.

Lemma from_first_lbrace_app (pre r : string) :
  PyStr.contains_char "{" pre = false ->
  Extractor.from_first_lbrace (pre ++ "{" ++ r) = Some r.
Proof.
  induction pre as [|c pre IH]; simpl; intros H; [reflexivity|].
  apply orb_false_iff in H as [Hc Hpre].
  rewrite Ascii.eqb_sym, Hc. auto.
Qed.

Lemma through_last_rbrace_none (s : string) :
  Extractor.through_last_rbrace s = None <-> PyStr.contains_char "}" s = false.
Proof.
  induction s as [|c s IH]; simpl; [tauto|].
  rewrite (Ascii.eqb_sym "}" c).
  destruct (Extractor.through_last_rbrace s) as [p|].
  - split; [discriminate|]. intros H. apply orb_false_iff in H as [_ H].
    apply IH in H. discriminate.
  - rewrite (proj1 IH eq_refl), orb_false_r.
    destruct (Ascii.eqb c "}"); split; congruence.
Qed.

Lemma through_last_rbrace_inv (s p : string) :
  Extractor.through_last_rbrace s = Some p ->
  exists mid post,
    s = mid ++ "}" ++ post /\ PyStr.contains_char "}" post = false /\ p = mid ++ "}".
Proof.
  revert p. induction s as [|c s IH]; simpl; intros p H; [discriminate|].
  destruct (Extractor.through_last_rbrace s) as [q|] eqn:E.
  - injection H as <-. destruct (IH q eq_refl) as (mid & post & -> & Hpost & ->).
    exists (String c mid), post. now repeat split.
  - destruct (Ascii.eqb c "}") eqn:Ec; [|discriminate].
    injection H as <-. apply Ascii.eqb_eq in Ec. subst c.
    exists EmptyString, s. repeat split. now apply through_last_rbrace_none.
Qed.

Lemma through_last_rbrace_app (mid post : string) :
  PyStr.contains_char "}" post = false ->
  Extractor.through_last_rbrace (mid ++ "}" ++ post) = Some (mid ++ "}").
Proof.
  intros H. induction mid as [|c mid IH]; simpl.
  - now rewrite (proj2 (through_last_rbrace_none post) H).
  - simpl in IH. now rewrite IH.
Qed.

Lemma re_search_braces_inv (text group : string) :
  Extractor.re_search_braces text = Some group ->
  exists pre mid post,
    text = pre ++ "{" ++ mid ++ "}" ++ post
    /\ PyStr.contains_char "{" pre = false
    /\ PyStr.contains_char "}" post = false
    /\ group = "{" ++ mid ++ "}".
Proof.
  unfold Extractor.re_search_braces.
  destruct (Extractor.from_first_lbrace text) as [r|] eqn:E; [|discriminate].
  destruct (Extractor.through_last_rbrace r) as [p|] eqn:Ep; [|discriminate].
  simpl. intros H. injection H as <-.
  apply from_first_lbrace_inv in E as (pre & -> & Hpre).
  apply through_last_rbrace_inv in Ep as (mid & post & -> & Hpost & ->).
  exists pre, mid, post. now repeat split.
Qed.

(** X1.  The regular-expression search of [ai_extract] returns exactly the
    span from the first opening brace of the text to its last closing
    brace. *)
Theorem re_search_braces_span (text group : string) :
  Extractor.re_search_braces text = Some group
  <-> exists pre mid post,
        text = pre ++ "{" ++ mid ++ "}" ++ post
        /\ PyStr.contains_char "{" pre = false
        /\ PyStr.contains_char "}" post = false
        /\ group = "{" ++ mid ++ "}".
Proof.
  split; [apply re_search_braces_inv|].
  intros (pre & mid & post & -> & Hpre & Hpost & ->).
  unfold Extractor.re_search_braces.
  rewrite (from_first_lbrace_app pre _ Hpre).
  now rewrite (through_last_rbrace_app mid post Hpost).
Qed.

Lemma from_first_lbrace_keeps_rbrace (pre x : string) :
  PyStr.contains_char "}" x = true ->
  exists r,
    Extractor.from_first_lbrace (pre ++ "{" ++ x) = Some r
    /\ PyStr.contains_char "}" r = true.
Proof.
  intros Hx. induction pre as [|c pre IH]; simpl.
  - now exists x.
  - destruct (Ascii.eqb c "{"); [|exact IH].
    exists (pre ++ "{" ++ x). split; [reflexivity|].
    rewrite contains_char_app. simpl. rewrite Hx. now rewrite !orb_true_r.
Qed.

(** X2.  The search finds nothing exactly when the text has no opening
    brace that is followed, anywhere later, by a closing brace. *)
Theorem re_search_braces_none (text : string) :
  Extractor.re_search_braces text = None <-> ~ Extra.has_span text.
Proof.
  split.
  - intros H (pre & mid & post & ->).
    destruct (from_first_lbrace_keeps_rbrace pre (mid ++ "}" ++ post)) as (r & Hr & Hc).
    { rewrite contains_char_app. simpl. apply orb_true_r. }
    unfold Extractor.re_search_braces in H. rewrite Hr in H.
    destruct (Extractor.through_last_rbrace r) eqn:E; [discriminate|].
    apply through_last_rbrace_none in E. congruence.
  - intros H. destruct (Extractor.re_search_braces text) as [group|] eqn:E; [|reflexivity].
    exfalso. apply H. apply re_search_braces_inv in E as (pre & mid & post & -> & _).
    now exists pre, mid, post.
Qed.

(** ** What an extraction carries *)

Lemma lookup_setitem_other (d : dict) (k k' : string) (v : pyval) :
  k' <> k -> PyVal.lookup (PyVal.setitem d k v) k' = PyVal.lookup d k'.
Proof.
  intros Hne. induction d as [|[k0 v0] d IH]; simpl.
  - apply String.eqb_neq in Hne. now rewrite Hne.
  - destruct (String.eqb k k0) eqn:E; simpl.
    + apply String.eqb_eq in E. subst k0.
      apply String.eqb_neq in Hne. now rewrite Hne.
    + now rewrite IH.
Qed.

Lemma setitem_keys (d : dict) (k : string) (v : pyval) :
  map fst (PyVal.setitem d k v)
  = if PyStr.str_in k (map fst d) then map fst d else (map fst d ++ [k])%list.
Proof.
  induction d as [|[k0 v0] d IH]; simpl; [reflexivity|].
  destruct (String.eqb k k0) eqn:E; simpl.
  - apply String.eqb_eq in E. now subst k0.
  - rewrite IH. now destruct (PyStr.str_in k (map fst d)).
Qed.

(** X3.  On success [extract_data] keeps the answer of the model as it is,
    but for [source]: every other key keeps its value and its place, and
    [source] is added last when the model gave none. *)
Theorem extract_data_keeps_fields
    (requests_post : string -> dict -> result Extractor.Response)
    (json_loads : string -> result dict) (filename content : string) (d : dict) :
  Spec.model_answers requests_post json_loads content d ->
  d <> [] ->
  exists r,
    Extractor.extract_data requests_post json_loads filename content = Ok r
    /\ (forall key, key <> "source" -> PyVal.lookup r key = PyVal.lookup d key)
    /\ map fst r
       = if PyStr.str_in "source" (map fst d) then map fst d
         else (map fst d ++ ["source"])%list.
Proof.
  intros H Hd. apply ai_extract_answers in H.
  exists (PyVal.setitem d "source" (PStr filename)). split; [|split].
  - unfold Extractor.extract_data. rewrite H. simpl.
    destruct d; [contradiction|reflexivity].
  - intros key Hkey. now apply lookup_setitem_other.
  - apply setitem_keys.
Qed.

Lemma extract_data_keeps_fields_witness :
  exists r,
    Extractor.extract_data service_answers loads_answer "invoice_001.txt" "text" = Ok r
    /\ (forall key, key <> "source" ->
          PyVal.lookup r key
          = PyVal.lookup
              [("vendor", PStr "ABC Ltd"); ("source", PStr "guess"); ("amount", PInt 5000)]
              key)
    /\ map fst r = ["vendor"; "source"; "amount"].
Proof.
  refine (extract_data_keeps_fields service_answers loads_answer "invoice_001.txt" "text"
            [("vendor", PStr "ABC Ltd"); ("source", PStr "guess"); ("amount", PInt 5000)]
            _ _).
  - exists {| Extractor.json :=
                Ok (PDict [("response", PStr "Here you go: {...} Anything else?")]) |},
      [("response", PStr "Here you go: {...} Anything else?")],
      "Here you go: {...} Anything else?", "{...}".
    repeat split.
  - discriminate.
Defined.

(** Whatever the service does, the extraction is one of two mappings. *)
Lemma extract_data_cases
    (requests_post : string -> dict -> result Extractor.Response)
    (json_loads : string -> result dict) (filename content : string) :
  Extractor.extract_data requests_post json_loads filename content
  = Ok (Spec.fallback_record filename)
  \/ exists d,
       d <> []
       /\ Extractor.extract_data requests_post json_loads filename content
          = Ok (PyVal.setitem d "source" (PStr filename)).
Proof.
  unfold Extractor.extract_data.
  destruct (ai_extract_returns requests_post json_loads content) as [r ->]. simpl.
  destruct r as [[|kv d]|]; simpl.
  - left. now rewrite fallback_extract_spec.
  - right. exists (kv :: d). split; [discriminate|reflexivity].
  - left. now rewrite fallback_extract_spec.
Qed.

Lemma extract_data_returns
    (requests_post : string -> dict -> result Extractor.Response)
    (json_loads : string -> result dict) (filename content : string) :
  exists d,
    Extractor.extract_data requests_post json_loads filename content = Ok d
    /\ PyVal.lookup d "source" = Some (PStr filename)
    /\ d <> [].
Proof.
  destruct (extract_data_cases requests_post json_loads filename content)
    as [H|(d & Hd & H)]; rewrite H; eexists; split; try reflexivity.
  - split; [reflexivity|discriminate].
  - split; [apply lookup_setitem|]. destruct d as [|[k v] d]; [contradiction|].
    intros Heq. cbn [PyVal.setitem] in Heq.
    destruct (String.eqb "source" k); discriminate Heq.
Qed.

(** X4.  Whatever the service does, [extract_data] returns a non-empty
    mapping whose [source] is the document name. *)
Theorem extract_data_source
    (requests_post : string -> dict -> result Extractor.Response)
    (json_loads : string -> result dict) (filename content : string) :
  exists d,
    Extractor.extract_data requests_post json_loads filename content = Ok d
    /\ PyVal.lookup d "source" = Some (PStr filename)
    /\ d <> [].
Proof.
  destruct (extract_data_cases requests_post json_loads filename content)
    as [H|(d & Hd & H)]; rewrite H; eexists; split; try reflexivity.
  - split; [reflexivity|discriminate].
  - split; [apply lookup_setitem|]. destruct d as [|[k v] d]; [contradiction|].
    intros Heq. cbn [PyVal.setitem] in Heq.
    destruct (String.eqb "source" k); discriminate Heq.
Qed.

Lemma stem_decompose (name : string) :
  PyStr.contains_char "." (Spec.stem name) = false
  /\ exists rest,
       name = Spec.stem name ++ rest
       /\ (rest = EmptyString \/ exists r, rest = "." ++ r).
Proof.
  induction name as [|c name [IHc (rest & IHn & IHr)]]; simpl.
  - split; [reflexivity|]. exists EmptyString. split; [reflexivity|now left].
  - destruct (Ascii.eqb c ".") eqn:E.
    + split; [reflexivity|]. apply Ascii.eqb_eq in E. subst c.
      exists (String "." name). split; [reflexivity|]. right. now exists name.
    + split.
      * simpl. now rewrite Ascii.eqb_sym, E.
      * exists rest. split; [|exact IHr]. simpl. now rewrite <- IHn.
Qed.

(** X5.  The [vendor] of the fallback record is the part of the document
    name before its first dot: it holds no dot, and the name is this part
    followed by nothing or by a dot and the rest. *)
Theorem fallback_extract_vendor (content filename : string) :
  exists vendor rest,
    PyVal.lookup (Extractor.fallback_extract content filename) "vendor"
    = Some (PStr vendor)
    /\ filename = vendor ++ rest
    /\ PyStr.contains_char "." vendor = false
    /\ (rest = EmptyString \/ exists r, rest = "." ++ r).
Proof.
  rewrite fallback_extract_spec.
  destruct (stem_decompose filename) as (Hdot & rest & Hname & Hrest).
  exists (Spec.stem filename), rest. now repeat split.
Qed.

(** ** Flattening and batches *)

Lemma flatten_app (a b : list pyval) :
  Spec.flatten (a ++ b) = (Spec.flatten a ++ Spec.flatten b)%list.
Proof. apply flat_map_app. Qed.

(** X6.  A mapping is in the flattened list exactly when it is an input
    item or an element of an input item that is a list; what lies deeper,
    and every other value, is dropped. *)
Theorem _flatten_records_In (items : list pyval) (d : dict) :
  In d (Aggregator._flatten_records items)
  <-> In (PDict d) items \/ exists l, In (PList l) items /\ In (PDict d) l.
Proof.
  rewrite _flatten_records_spec. unfold Spec.flatten. rewrite in_flat_map. split.
  - intros (item & Hitem & Hd). destruct item as [| | | | |l|d0]; simpl in Hd;
      try contradiction.
    + right. exists l. split; [exact Hitem|].
      unfold Spec.mappings_of in Hd. apply in_flat_map in Hd as (rec & Hrec & Hd).
      destruct rec; simpl in Hd; try contradiction.
      destruct Hd as [<-|[]]. exact Hrec.
    + destruct Hd as [<-|[]]. now left.
  - intros [H|(l & Hl & Hd)].
    + exists (PDict d). split; [exact H|now left].
    + exists (PList l). split; [exact Hl|].
      simpl. unfold Spec.mappings_of. apply in_flat_map.
      exists (PDict d). split; [exact Hd|now left].
Qed.

Lemma normalized_batch_app (tape : nat -> Z) (a : list dict) :
  forall n b,
    Spec.normalized_batch tape n (a ++ b)
    = match Spec.normalized_batch tape n a with
      | Ok ra =>
          match Spec.normalized_batch tape (n + List.length a) b with
          | Ok rb => Ok (ra ++ rb)%list
          | Raise e => Raise e
          end
      | Raise e => Raise e
      end.
Proof.
  induction a as [|r a IH]; intros n b.
  - simpl. rewrite Nat.add_0_r. now destruct (Spec.normalized_batch tape n b).
  - rewrite <- app_comm_cons, !normalized_batch_cons, IH.
    destruct (Spec.normalized r _); [|reflexivity].
    destruct (Spec.normalized_batch tape (S n) a); [|reflexivity].
    replace (n + List.length (r :: a)) with (S n + List.length a) by (simpl; lia).
    now destruct (Spec.normalized_batch tape (S n + List.length a) b).
Qed.

(** X7.  Merging two lists of extractions one after the other, with the
    entropy handed on, gives the same records as merging their
    concatenation at once. *)
Theorem merge_data_app (a b : list pyval) (g g1 g2 : Uuid.entropy)
    (ra rb : list dict) :
  Aggregator.merge_data a g = (Ok ra, g1) ->
  Aggregator.merge_data b g1 = (Ok rb, g2) ->
  Aggregator.merge_data (a ++ b) g = (Ok (ra ++ rb)%list, g2).
Proof.
  intros Ha Hb.
  pose proof (merge_data_fst a g) as Ea. rewrite Ha in Ea. simpl in Ea.
  apply merge_data_snd in Ha. subst g1.
  pose proof (merge_data_fst b (Spec.advance g (List.length ra))) as Eb.
  rewrite Hb in Eb. simpl in Eb.
  apply merge_data_snd in Hb. subst g2.
  assert (Hlen : List.length (Spec.flatten a) = List.length ra).
  { symmetry in Ea. now apply normalized_batch_Forall2, Forall2_length in Ea. }
  rewrite advance_advance, <- length_app.
  apply merge_data_eval.
  now rewrite flatten_app, normalized_batch_app, <- Ea, Hlen, <- Eb.
Qed.

Lemma merge_data_app_witness :
  Aggregator.merge_data
    ([PDict sample_extracted] ++ [PList [PDict []; PInt 7]]) entropy_count
  = (Ok ([sample_record (Uuid.str (Spec.uuid_of_draw (fun n => Z.of_nat n) 0))]
           ++ [Spec.canonical EmptyString EmptyString PyFloat.zero PyFloat.zero EmptyString
                 (Uuid.str (Spec.uuid_of_draw (fun n => Z.of_nat n) 1))])%list,
     Spec.advance entropy_count 2).
Proof.
  apply (merge_data_app [PDict sample_extracted] [PList [PDict []; PInt 7]]
           entropy_count (Spec.advance entropy_count 1)).
  - vm_compute. reflexivity.
  - vm_compute. reflexivity.
Defined.

(** X8.  Every record that [merge_data] returns has exactly the six
    canonical keys, in canonical order, whatever keys the extraction had:
    text under [date], [vendor], [source] and [record_id], floats under
    [amount] and [tax]. *)
Theorem merge_data_canonical_keys (items : list pyval) (g : Uuid.entropy) :
  match fst (Aggregator.merge_data items g) with
  | Ok recs =>
      Forall (fun c => map fst c = Aggregator.CANONICAL_COLUMNS
                       /\ Spec.CanonicalRecord c) recs
  | Raise e => e = OverflowError
  end.
Proof.
  rewrite merge_data_fst.
  destruct (Spec.normalized_batch _ _ _) as [recs|e] eqn:E.
  - apply normalized_batch_Forall2, Forall2_normalizes_canonical in E.
    eapply Forall_impl; [|exact E].
    intros c Hc. split; [|exact Hc].
    now destruct Hc as (d & v & a & t & s & i & ->).
  - now apply normalized_batch_raise in E.
Qed.

(** ** Field by field *)

Lemma lstrip_is_blank (s : string) : Spec.is_blank (PyStr.lstrip s) = Spec.is_blank s.
Proof.
  induction s as [|c s IH]; simpl; [reflexivity|].
  destruct (PyStr.isspace c) eqn:E; simpl; [exact IH|]. now rewrite E.
Qed.

Lemma rstrip_not_blank (s : string) :
  Spec.is_blank s = false -> PyStr.rstrip s <> EmptyString.
Proof.
  induction s as [|c s IH]; simpl; [discriminate|].
  intros H. destruct (PyStr.rstrip s) eqn:E; [|discriminate].
  destruct (PyStr.isspace c); [|discriminate].
  simpl in H. destruct (Spec.is_blank s); [discriminate|]. now apply IH.
Qed.

Lemma lower_empty (s : string) : PyStr.lower s = EmptyString -> s = EmptyString.
Proof. destruct s; [reflexivity|discriminate]. Qed.

(** The code and the specification agree on which texts are placeholders. *)
Lemma is_placeholder_spec (s : string) :
  Aggregator.is_placeholder (PStr s) = Spec.placeholder (PStr s).
Proof.
  rewrite is_placeholder_str. simpl.
  destruct (Spec.is_blank s) eqn:Eb.
  - now rewrite strip_blank.
  - simpl. rewrite orb_false_r.
    destruct (String.eqb (PyStr.lower (PyStr.strip s)) EmptyString) eqn:E; [|reflexivity].
    exfalso. apply String.eqb_eq, lower_empty in E.
    apply (rstrip_not_blank (PyStr.lstrip s)); [|exact E].
    now rewrite lstrip_is_blank.
Qed.

(** X9.  A [date] or [vendor] text that is not a placeholder is kept
    character for character: trimming and lower-casing serve the test
    only. *)
Theorem _normalize_record_keeps_text (r : dict) (g : Uuid.entropy)
    (key s : string) :
  key = "date" \/ key = "vendor" ->
  PyVal.lookup r key = Some (PStr s) ->
  Spec.placeholder (PStr s) = false ->
  match fst (Aggregator._normalize_record r g) with
  | Ok c => PyVal.lookup c key = Some (PStr s)
  | Raise e => e = OverflowError /\ Spec.overflows r = true
  end.
Proof.
  intros Hkey Hs Hp. rewrite _normalize_record_run.
  destruct (Spec.normalized r _) as [c|e] eqn:E; simpl.
  - apply normalized_inv in E as (a & t & _ & _ & ->).
    assert (Hc : Spec.cleaned (PStr s) = s).
    { unfold Spec.cleaned. now rewrite is_placeholder_spec, Hp. }
    destruct Hkey as [-> | ->]; simpl; now rewrite (get_lookup _ _ _ _ Hs), Hc.
  - now apply normalized_raise in E.
Qed.

Lemma _normalize_record_keeps_text_witness :
  match fst (Aggregator._normalize_record
               [("vendor", PStr "  ABC Ltd ")] entropy_count) with
  | Ok c => PyVal.lookup c "vendor" = Some (PStr "  ABC Ltd ")
  | Raise e => e = OverflowError /\ Spec.overflows [("vendor", PStr "  ABC Ltd ")] = true
  end.
Proof.
  apply (_normalize_record_keeps_text [("vendor", PStr "  ABC Ltd ")] entropy_count
           "vendor" "  ABC Ltd ").
  - right. reflexivity.
  - reflexivity.
  - reflexivity.
Defined.

Lemma _safe_float_zero : Aggregator._safe_float (PInt 0) = Ok PyFloat.zero.
Proof. reflexivity. Qed.

Lemma get_missing (r : dict) (key : string) (default : pyval) :
  PyVal.lookup r key = None -> PyVal.get r key default = default.
Proof. unfold PyVal.get. now intros ->. Qed.

(** X10.  A key that the raw mapping lacks gets its default in the
    canonical record: the empty text for [date], [vendor] and [source],
    the float 0.0 for [amount] and [tax]. *)
Theorem _normalize_record_defaults (r : dict) (g : Uuid.entropy) (key : string) :
  PyVal.lookup r key = None ->
  match fst (Aggregator._normalize_record r g) with
  | Ok c =>
      (In key ["date"; "vendor"; "source"] ->
       PyVal.lookup c key = Some (PStr EmptyString))
      /\ (In key ["amount"; "tax"] ->
          PyVal.lookup c key = Some (PFloat PyFloat.zero))
  | Raise e => e = OverflowError /\ Spec.overflows r = true
  end.
Proof.
  intros Hk. rewrite _normalize_record_run.
  destruct (Spec.normalized r _) as [c|e] eqn:E; simpl.
  - apply normalized_inv in E as (a & t & Ha & Ht & ->). split; intros Hin.
    + destruct Hin as [<-|[<-|[<-|[]]]]; simpl; now rewrite (get_missing _ _ _ Hk).
    + destruct Hin as [<-|[<-|[]]]; simpl.
      * rewrite (get_missing _ _ _ Hk), _safe_float_zero in Ha. congruence.
      * rewrite (get_missing _ _ _ Hk), _safe_float_zero in Ht. congruence.
  - now apply normalized_raise in E.
Qed.

Lemma _normalize_record_defaults_witness :
  match fst (Aggregator._normalize_record [("date", PStr "2024-01-15")] entropy_count) with
  | Ok c =>
      (In "amount" ["date"; "vendor"; "source"] ->
       PyVal.lookup c "amount" = Some (PStr EmptyString))
      /\ (In "amount" ["amount"; "tax"] ->
          PyVal.lookup c "amount" = Some (PFloat PyFloat.zero))
  | Raise e => e = OverflowError /\ Spec.overflows [("date", PStr "2024-01-15")] = true
  end.
Proof.
  apply (_normalize_record_defaults [("date", PStr "2024-01-15")] entropy_count "amount").
  reflexivity.
Defined.

(** X11.  Placeholders are not collapsed in [source]: a [source] text is
    kept as it is, even blank or "unknown", and a null [source] becomes the
    text None. *)
Theorem _normalize_record_source (r : dict) (g : Uuid.entropy) (v : pyval) :
  PyVal.lookup r "source" = Some v ->
  Spec.placeholder v = true ->
  match fst (Aggregator._normalize_record r g) with
  | Ok c =>
      PyVal.lookup c "source"
      = Some (PStr (match v with PStr s => s | _ => "None" end))
  | Raise e => e = OverflowError /\ Spec.overflows r = true
  end.
Proof.
  intros Hv Hp. rewrite _normalize_record_run.
  destruct (Spec.normalized r _) as [c|e] eqn:E; simpl.
  - apply normalized_inv in E as (a & t & _ & _ & ->). simpl.
    rewrite (get_lookup _ _ _ _ Hv).
    destruct v; try discriminate Hp; reflexivity.
  - now apply normalized_raise in E.
Qed.

Lemma _normalize_record_source_witness :
  match fst (Aggregator._normalize_record
               [("vendor", PNone); ("source", PNone)] entropy_count) with
  | Ok c => PyVal.lookup c "source" = Some (PStr "None")
  | Raise e => e = OverflowError
               /\ Spec.overflows [("vendor", PNone); ("source", PNone)] = true
  end.
Proof.
  apply (_normalize_record_source [("vendor", PNone); ("source", PNone)] entropy_count
           PNone).
  - reflexivity.
  - reflexivity.
Defined.

(** X12.  [_safe_float] raises for an integer only, and then
    [OverflowError]; a float is returned as it is, and a null, a list, a
    mapping or a text that is not a number gives 0.0. *)
Theorem _safe_float_cases (v : pyval) :
  (forall e, Aggregator._safe_float v = Raise e ->
             e = OverflowError /\ exists z, v = PInt z)
  /\ match v with
     | PFloat f => Aggregator._safe_float v = Ok f
     | PNone | PList _ | PDict _ => Aggregator._safe_float v = Ok PyFloat.zero
     | PStr s =>
         Aggregator._safe_float v
         = Ok (match PyFloat.of_str s with Some f => f | None => PyFloat.zero end)
     | PBool b => Aggregator._safe_float v = PyFloat.of_int (if b then 1 else 0)
     | PInt z => Aggregator._safe_float v = PyFloat.of_int z
     end.
Proof.
  split.
  - intros e H. apply _safe_float_raise in H as (He & z & Hz & _). eauto.
  - destruct v as [|b|z|f|s|l|d]; try reflexivity.
    unfold Aggregator._safe_float. simpl.
    now destruct (PyFloat.of_str s).
Qed.

(** X13.  When no input item is a mapping or holds one,
    [merge_data_detailed] returns no record, the integer 0 for both totals
    and the number of input items, and reads no entropy. *)
Theorem merge_data_detailed_no_record (items : list pyval) (g : Uuid.entropy) :
  Aggregator._flatten_records items = [] ->
  Aggregator.merge_data_detailed items g
  = (Ok {| Aggregator.records := [];
           Aggregator.total_amount := PInt 0;
           Aggregator.total_tax := PInt 0;
           Aggregator.document_count := List.length items |}, g).
Proof.
  intros H. unfold Aggregator.merge_data_detailed, Aggregator.bind.
  rewrite merge_data_run, <- _flatten_records_spec, H. reflexivity.
Qed.

Lemma merge_data_detailed_no_record_witness :
  Aggregator.merge_data_detailed [PNone; PStr "text"; PList [PInt 1; PList []]] entropy_count
  = (Ok {| Aggregator.records := [];
           Aggregator.total_amount := PInt 0;
           Aggregator.total_tax := PInt 0;
           Aggregator.document_count := 3 |}, entropy_count).
Proof.
  apply (merge_data_detailed_no_record [PNone; PStr "text"; PList [PInt 1; PList []]]
           entropy_count).
  reflexivity.
Defined.

Lemma normalized_same_data (r : dict) (rid rid' : string) :
  match Spec.normalized r rid, Spec.normalized r rid' with
  | Ok c, Ok c' => Extra.same_data c c'
  | Raise e, Raise e' => e = e'
  | _, _ => False
  end.
Proof.
  unfold Spec.normalized.
  destruct (Aggregator._safe_float (PyVal.get r "amount" (PInt 0))); simpl; [|reflexivity].
  destruct (Aggregator._safe_float (PyVal.get r "tax" (PInt 0))); simpl; [|reflexivity].
  repeat constructor.
Qed.

Lemma normalized_batch_same_data (tape tape' : nat -> Z) (l : list dict) :
  forall n m,
    match Spec.normalized_batch tape n l, Spec.normalized_batch tape' m l with
    | Ok cs, Ok cs' => Forall2 Extra.same_data cs cs'
    | Raise e, Raise e' => e = e'
    | _, _ => False
    end.
Proof.
  induction l as [|r l IH]; intros n m; [constructor|].
  rewrite !normalized_batch_cons.
  pose proof (normalized_same_data r (Uuid.str (Spec.uuid_of_draw tape n))
                (Uuid.str (Spec.uuid_of_draw tape' m))) as Hr.
  destruct (Spec.normalized r (Uuid.str (Spec.uuid_of_draw tape n)));
    destruct (Spec.normalized r (Uuid.str (Spec.uuid_of_draw tape' m)));
    try contradiction; [|exact Hr].
  specialize (IH (S n) (S m)).
  destruct (Spec.normalized_batch tape (S n) l);
    destruct (Spec.normalized_batch tape' (S m) l);
    try contradiction; [|exact IH].
  now constructor.
Qed.

(** X14.  Entropy decides the identifiers and nothing else: under two
    states of entropy [merge_data] either returns records that agree on
    [date], [vendor], [amount], [tax] and [source], position by position,
    or raises the same exception. *)
Theorem merge_data_entropy (items : list pyval) (g h : Uuid.entropy) :
  match fst (Aggregator.merge_data items g), fst (Aggregator.merge_data items h) with
  | Ok recs, Ok recs' => Forall2 Extra.same_data recs recs'
  | Raise e, Raise e' => e = e'
  | _, _ => False
  end.
Proof. rewrite !merge_data_fst. apply normalized_batch_same_data. Qed.

(** ** The debug switch *)

Lemma lower_char_idempotent (c : ascii) :
  PyStr.lower_char (PyStr.lower_char c) = PyStr.lower_char c.
Proof. destruct c as [[] [] [] [] [] [] [] []]; reflexivity. Qed.

Lemma lower_idempotent (s : string) : PyStr.lower (PyStr.lower s) = PyStr.lower s.
Proof.
  induction s as [|c s IH]; simpl; [reflexivity|].
  now rewrite lower_char_idempotent, IH.
Qed.

(** X15.  Debug mode does not depend on the case of the [DEBUG] variable: a
    value and its lower-case form switch it the same way, and so do two
    values with the same lower-case form; it is off when the variable is
    not set. *)
Theorem DEBUG_MODE_case (s t : string) :
  Config.DEBUG_MODE (Some (PyStr.lower s)) = Config.DEBUG_MODE (Some s)
  /\ (PyStr.lower s = PyStr.lower t ->
      Config.DEBUG_MODE (Some s) = Config.DEBUG_MODE (Some t))
  /\ Config.DEBUG_MODE None = false.
Proof.
  unfold Config.DEBUG_MODE. repeat split.
  - now rewrite lower_idempotent.
  - now intros ->.
Qed.

(** ** Uploading *)

Lemma flatten_mappings {A : Type} (k : A -> dict) (l : list A) :
  Spec.flatten (map (fun x => PDict (k x)) l) = map k l.
Proof. induction l as [|x l IH]; simpl; [reflexivity|]. now rewrite <- IH. Qed.

Lemma normalized_batch_sources (tape : nat -> Z) (l : list dict) :
  forall n cs, Spec.normalized_batch tape n l = Ok cs ->
    map (fun c => PyVal.lookup c "source") cs
    = map (fun d => Some (PStr (PyVal.str (PyVal.get d "source" (PStr EmptyString))))) l.
Proof.
  induction l as [|r l IH]; intros n cs.
  - simpl. intros H. now injection H as <-.
  - batch_step r l IH n; try discriminate.
    intros H. injection H as <-. simpl. f_equal; [|eauto].
    now apply normalized_inv in Ec as (a & t & _ & _ & ->).
Qed.

Lemma extraction_of_source
    (requests_post : string -> dict -> result Extractor.Response)
    (json_loads : string -> result dict) (decode : string -> string)
    (f : Main.UploadFile) :
  PyVal.str (PyVal.get (Extra.extraction_of requests_post json_loads decode f)
               "source" (PStr EmptyString))
  = Main.upload_name f.
Proof.
  unfold Extra.extraction_of.
  destruct (extract_data_returns requests_post json_loads (Main.upload_name f)
              (decode (Main.content f))) as (d & -> & Hs & _).
  now rewrite (get_lookup _ _ _ _ Hs).
Qed.

(** The loop of [upload_files] never raises an exception of the pipeline:
    it returns the extractions in upload order, or stops at a write that
    the file system refused. *)
Lemma process_files_cases
    (requests_post : string -> dict -> result Extractor.Response)
    (json_loads : string -> result dict) (decode : string -> string)
    (Disk : Type) (write_bytes : string -> string -> Disk -> option string * Disk)
    (files : list Main.UploadFile) :
  forall acc disk,
    match Main.process_files requests_post json_loads decode Disk write_bytes
            files acc disk with
    | (Main.Returned processed_data, _) =>
        processed_data
        = (acc ++ map (fun f => PDict (Extra.extraction_of requests_post json_loads
                                         decode f)) files)%list
    | (Main.Raised (Main.PipelineError _), _) => False
    | (Main.Raised (Main.FileSystemError _), _) => True
    end.
Proof.
  induction files as [|f files IH]; intros acc disk.
  - simpl. now rewrite app_nil_r.
  - cbn [Main.process_files map].
    destruct (write_bytes _ _ disk) as [[reason|] disk1]; [exact I|].
    unfold Extra.extraction_of at 1.
    destruct (extract_data_returns requests_post json_loads (Main.upload_name f)
                (decode (Main.content f))) as (d & -> & _).
    specialize (IH (acc ++ [PDict d])%list disk1).
    destruct (Main.process_files _ _ _ _ _ files _ disk1) as [[data|[e|reason]] disk2];
      [|exact IH|exact I].
    now rewrite IH, <- app_assoc.
Qed.

(** On a file system that accepts every write, the loop returns. *)
Lemma process_files_accepted
    (requests_post : string -> dict -> result Extractor.Response)
    (json_loads : string -> result dict) (decode : string -> string)
    (Disk : Type) (write_bytes : string -> string -> Disk -> option string * Disk)
    (files : list Main.UploadFile) :
  Extra.accepts write_bytes ->
  forall acc disk,
  exists processed_data disk',
    Main.process_files requests_post json_loads decode Disk write_bytes files acc disk
    = (Main.Returned processed_data, disk').
Proof.
  intros Hacc. induction files as [|f files IH]; intros acc disk.
  - now exists acc, disk.
  - cbn [Main.process_files].
    pose proof (Hacc (Main.path_join Main.UPLOAD_FOLDER (Main.upload_name f))
                  (Main.content f) disk) as Hw.
    destruct (write_bytes _ _ disk) as [[reason|] disk1]; [discriminate|].
    destruct (extract_data_returns requests_post json_loads (Main.upload_name f)
                (decode (Main.content f))) as (d & -> & _).
    apply IH.
Qed.

(** X16.  When [upload_files] returns, its data holds exactly one canonical
    record per uploaded file, in upload order, whose [source] is the name
    of the file (or "unnamed" when the client gave none), and one read of
    entropy was made per file.  When it raises, the exception is
    [OverflowError] or one that the file system raised on a write. *)
Theorem upload_files_records
    (requests_post : string -> dict -> result Extractor.Response)
    (json_loads : string -> result dict) (decode : string -> string)
    (Disk : Type) (write_bytes : string -> string -> Disk -> option string * Disk)
    (to_csv : list dict -> string -> Disk -> option string * Disk)
    (files : list Main.UploadFile) (g : Uuid.entropy) (disk : Disk) :
  match Main.upload_files requests_post json_loads decode Disk write_bytes to_csv
          files g disk with
  | (Main.Returned response, g', _) =>
      map (fun c => PyVal.lookup c "source") (Main.data response)
      = map (fun f => Some (PStr (Main.upload_name f))) files
      /\ Forall Spec.CanonicalRecord (Main.data response)
      /\ g' = Spec.advance g (List.length files)
  | (Main.Raised (Main.PipelineError e), _, _) => e = OverflowError
  | (Main.Raised (Main.FileSystemError _), _, _) => True
  end.
Proof.
  unfold Main.upload_files.
  pose proof (process_files_cases requests_post json_loads decode Disk write_bytes
                files [] disk) as Hp.
  destruct (Main.process_files _ _ _ _ _ files [] disk) as [[items|[e|reason]] disk1];
    [|contradiction|exact I].
  cbn [app] in Hp. subst items.
  pose proof (merge_data_fst
                (map (fun f => PDict (Extra.extraction_of requests_post json_loads
                                        decode f)) files) g) as Hf.
  rewrite flatten_mappings in Hf.
  destruct (Aggregator.merge_data _ g) as [[merged|e] g1] eqn:E;
    cbn [fst] in Hf; symmetry in Hf.
  - destruct (Main.create_csv _ _ _ _ disk1) as [[reason|] disk2]; [exact I|].
    cbn [Main.data]. repeat split.
    + rewrite (normalized_batch_sources _ _ _ _ Hf), map_map.
      apply map_ext. intros f. now rewrite extraction_of_source.
    + eapply merge_data_canonical; exact E.
    + apply merge_data_snd in E. rewrite E. f_equal.
      apply normalized_batch_Forall2, Forall2_length in Hf.
      now rewrite <- Hf, length_map.
  - now apply normalized_batch_raise in Hf.
Qed.

(** ** The health check *)

(** X20.  [health_check] reports the extractor and the aggregator as ok
    whatever the model service and the file system do, so an outage of the
    service does not show, and it makes one read of entropy.  Its status is
    ok when the file system lets the probe file be written and removed, and
    degraded, with the text of the exception under [csv_converter], when
    the file system refuses either. *)
Theorem health_check_blind
    (requests_post : string -> dict -> result Extractor.Response)
    (json_loads : string -> result dict) (error_text : Main.error -> string)
    (Disk : Type) (to_csv : list dict -> string -> Disk -> option string * Disk)
    (os_remove : string -> Disk -> option string * Disk)
    (g : Uuid.entropy) (disk : Disk) :
  let '(health, g', _) :=
    Main.health_check requests_post json_loads error_text Disk to_csv os_remove
      g disk in
  PyVal.lookup (Main.pipeline health) "extractor" = Some (PStr "ok")
  /\ PyVal.lookup (Main.pipeline health) "aggregator" = Some (PStr "ok")
  /\ g' = Spec.advance g 1
  /\ match to_csv [] "app/uploads/.health_check" disk with
     | (None, disk1) =>
         match os_remove "app/uploads/.health_check" disk1 with
         | (None, _) =>
             Main.status health = "ok"
             /\ PyVal.lookup (Main.pipeline health) "csv_converter" = Some (PStr "ok")
         | (Some reason, _) =>
             Main.status health = "degraded"
             /\ PyVal.lookup (Main.pipeline health) "csv_converter"
                = Some (PStr (error_text (Main.FileSystemError reason)))
         end
     | (Some reason, _) =>
         Main.status health = "degraded"
         /\ PyVal.lookup (Main.pipeline health) "csv_converter"
            = Some (PStr (error_text (Main.FileSystemError reason)))
     end.
Proof.
  unfold Main.health_check, Main.create_csv.
  destruct (extract_data_returns requests_post json_loads "test.txt" EmptyString)
    as (d & -> & _).
  assert (Hm : exists cs,
             Aggregator.merge_data
               [PDict [("date", PStr "2024-01-01"); ("vendor", PStr "test");
                       ("amount", PInt 0); ("tax", PInt 0); ("source", PStr "test")]] g
             = (Ok cs, Spec.advance g 1)).
  { exists [Spec.canonical "2024-01-01" "test" PyFloat.zero PyFloat.zero "test"
              (Uuid.str (Spec.uuid_of_draw (Uuid.tape g) (Uuid.drawn g)))].
    apply (merge_data_eval _ g
             [Spec.canonical "2024-01-01" "test" PyFloat.zero PyFloat.zero "test"
                (Uuid.str (Spec.uuid_of_draw (Uuid.tape g) (Uuid.drawn g)))]).
    reflexivity. }
  destruct Hm as (cs & ->).
  change (Main.path_join Main.UPLOAD_FOLDER ".health_check")
    with "app/uploads/.health_check".
  destruct (to_csv [] "app/uploads/.health_check" disk) as [[reason|] disk1].
  - repeat split.
  - destruct (os_remove "app/uploads/.health_check" disk1) as [[reason|] disk2];
      repeat split.
Qed.

(** ** From a failed extraction to a canonical record *)

Lemma normalized_fallback (name rid : string) :
  Spec.normalized (Spec.fallback_record name) rid
  = Ok (Spec.canonical EmptyString (Spec.cleaned (PStr (Spec.stem name)))
          PyFloat.zero PyFloat.zero name rid).
Proof. reflexivity. Qed.

Lemma cleaned_text (s : string) :
  Spec.cleaned (PStr s) = if Spec.placeholder (PStr s) then EmptyString else s.
Proof.
  unfold Spec.cleaned. rewrite is_placeholder_spec.
  now destruct (Spec.placeholder (PStr s)).
Qed.

(** X21.  Normalizing the fallback record of a document always succeeds:
    the canonical record has an empty [date], 0.0 for [amount] and [tax],
    the document name as [source], and as [vendor] the name up to its first
    dot, or the empty text when that part is itself a placeholder (as for
    a file called unknown.txt). *)
Theorem _normalize_record_fallback (content filename : string) (g : Uuid.entropy) :
  Aggregator._normalize_record (Extractor.fallback_extract content filename) g
  = (Ok (Spec.canonical EmptyString
           (if Spec.placeholder (PStr (Spec.stem filename)) then EmptyString
            else Spec.stem filename)
           PyFloat.zero PyFloat.zero filename
           (Uuid.str (Spec.uuid_of_draw (Uuid.tape g) (Uuid.drawn g)))),
     Spec.advance g 1).
Proof.
  now rewrite _normalize_record_run, fallback_extract_spec, normalized_fallback,
    cleaned_text.
Qed.

Lemma extraction_of_down
    (requests_post : string -> dict -> result Extractor.Response)
    (json_loads : string -> result dict) (decode : string -> string)
    (f : Main.UploadFile) :
  (forall url body, exists e, requests_post url body = Raise e) ->
  Extra.extraction_of requests_post json_loads decode f
  = Spec.fallback_record (Main.upload_name f).
Proof.
  intros Hdown. unfold Extra.extraction_of, Extractor.extract_data.
  rewrite ai_extract_fails.
  - simpl. now rewrite fallback_extract_spec.
  - unfold Spec.extraction_fails.
    destruct (Hdown Extractor.OLLAMA_URL
                (Extractor.payload (decode (Main.content f)))) as [e ->].
    exact I.
Qed.

Lemma normalized_batch_fallback (tape : nat -> Z) (names : list string) :
  forall n,
  exists cs,
    Spec.normalized_batch tape n (map Spec.fallback_record names) = Ok cs
    /\ Forall2
         (fun name c =>
            exists rid,
              c = Spec.canonical EmptyString
                    (if Spec.placeholder (PStr (Spec.stem name)) then EmptyString
                     else Spec.stem name)
                    PyFloat.zero PyFloat.zero name rid)
         names cs.
Proof.
  induction names as [|name names IH]; intros n.
  - exists []. split; [reflexivity|constructor].
  - destruct (IH (S n)) as (cs & Hcs & Hall).
    cbn [map]. rewrite normalized_batch_cons, normalized_fallback, Hcs, cleaned_text.
    eexists. split; [reflexivity|]. constructor; [|exact Hall]. now eexists.
Qed.

(** X22.  When the model service cannot be reached, [upload_files] raises
    nothing but what the file system raised on a write, and on a file
    system that accepts every write it returns.  What it returns holds one
    canonical record per uploaded file, in upload order: empty [date], the
    name up to its first dot as [vendor] (empty when that part is a
    placeholder), 0.0 for [amount] and [tax], and the name as [source]. *)
Theorem upload_files_service_down
    (requests_post : string -> dict -> result Extractor.Response)
    (json_loads : string -> result dict) (decode : string -> string)
    (Disk : Type) (write_bytes : string -> string -> Disk -> option string * Disk)
    (to_csv : list dict -> string -> Disk -> option string * Disk)
    (files : list Main.UploadFile) (g : Uuid.entropy) (disk : Disk) :
  (forall url body, exists e, requests_post url body = Raise e) ->
  match Main.upload_files requests_post json_loads decode Disk write_bytes to_csv
          files g disk with
  | (Main.Returned response, g', _) =>
      g' = Spec.advance g (List.length files)
      /\ Forall2
           (fun f c =>
              exists rid,
                c = Spec.canonical EmptyString
                      (if Spec.placeholder (PStr (Spec.stem (Main.upload_name f)))
                       then EmptyString else Spec.stem (Main.upload_name f))
                      PyFloat.zero PyFloat.zero (Main.upload_name f) rid)
           files (Main.data response)
  | (Main.Raised (Main.PipelineError _), _, _) => False
  | (Main.Raised (Main.FileSystemError _), _, _) =>
      ~ (Extra.accepts write_bytes /\ Extra.accepts to_csv)
  end.
Proof.
  intros Hdown. unfold Main.upload_files.
  pose proof (process_files_cases requests_post json_loads decode Disk write_bytes
                files [] disk) as Hp.
  destruct (Main.process_files _ _ _ _ _ files [] disk) as [[items|[e|reason]] disk1] eqn:Ep;
    [|contradiction|].
  - cbn [app] in Hp. subst items.
    assert (Hitems :
              map (fun f => PDict (Extra.extraction_of requests_post json_loads decode f))
                files
              = map (fun f => PDict (Spec.fallback_record (Main.upload_name f))) files).
    { apply map_ext. intros f. now rewrite extraction_of_down. }
    rewrite Hitems.
    destruct (normalized_batch_fallback (Uuid.tape g) (map Main.upload_name files)
                (Uuid.drawn g)) as (cs & Hcs & Hall).
    rewrite map_map in Hcs.
    rewrite (merge_data_eval _ g cs)
      by (rewrite (flatten_mappings (fun f => Spec.fallback_record (Main.upload_name f)));
          exact Hcs).
    assert (Hlen : List.length cs = List.length files).
    { apply Forall2_length in Hall. now rewrite <- Hall, length_map. }
    rewrite Hlen. unfold Main.create_csv.
    destruct (to_csv _ _ disk1) as [[reason|] disk2] eqn:Ew.
    + intros [_ Hacc].
      pose proof (Hacc cs (Main.path_join Main.UPLOAD_FOLDER "output.csv") disk1) as Hw.
      rewrite Ew in Hw. discriminate Hw.
    + split; [reflexivity|]. cbn [Main.data]. clear - Hall.
      remember (map Main.upload_name files) as names eqn:Hn.
      revert files Hn. induction Hall as [|name c names cs Hc _ IH]; intros files Hn.
      * destruct files; [constructor|discriminate].
      * destruct files as [|f files]; [discriminate|].
        injection Hn as -> ->. constructor; [exact Hc|now apply IH].
  - intros [Hacc _].
    destruct (process_files_accepted requests_post json_loads decode Disk write_bytes
                files Hacc [] disk) as (data & disk' & Hr).
    rewrite Hr in Ep. discriminate Ep.
Qed.

Lemma upload_files_service_down_witness :
  match Main.upload_files service_down loads_nothing (fun bytes => bytes)
          (list (string * string)) write_logged to_csv_logged
          [{| Main.filename := Some "unknown.txt"; Main.content := "Total: 5000" |}]
          entropy_count [] with
  | (Main.Returned response, g', _) =>
      g' = Spec.advance entropy_count 1
      /\ Forall2
           (fun f c =>
              exists rid,
                c = Spec.canonical EmptyString
                      (if Spec.placeholder (PStr (Spec.stem (Main.upload_name f)))
                       then EmptyString else Spec.stem (Main.upload_name f))
                      PyFloat.zero PyFloat.zero (Main.upload_name f) rid)
           [{| Main.filename := Some "unknown.txt"; Main.content := "Total: 5000" |}]
           (Main.data response)
  | (Main.Raised (Main.PipelineError _), _, _) => False
  | (Main.Raised (Main.FileSystemError _), _, _) =>
      ~ (Extra.accepts write_logged /\ Extra.accepts to_csv_logged)
  end.
Proof.
  apply (upload_files_service_down service_down loads_nothing (fun bytes => bytes)
           (list (string * string)) write_logged to_csv_logged
           [{| Main.filename := Some "unknown.txt"; Main.content := "Total: 5000" |}]
           entropy_count []).
  intros url body. exists RequestException. reflexivity.
Defined.
